(** * SkyGuard dashboard: the stream consumer, the detection normaliser,
      the alert panel and the upload handler

    A shallow embedding of the application logic of the dashboard:
    - [Streaming]: [VideoStreamingDetection] (six [useState] cells, the
      [startStreamingDetection] handler and its [processStream] loop);
    - [BatchDetection]: the normalisation done by [processUploadedVideo];
    - [AlertPanel]: the alert list, its tab filter and the item buttons;
    - [VideoAnalysisPage]: the [handleFileUpload] handler;
    - [Overlap]: several runs of the consumer on one component;
    - [Wire]: the consumer from the bytes of each read, with the UTF-8
      decoding of each value;
    - [InferencePanel], [Home]: the frame filter, the label filter, the
      upload of the inference panel and the video quality button.

    JavaScript values are modelled by [Js.JsValue]; numbers are IEEE binary64
    ([PrimFloat.float]), strings are sequences of code units below 256,
    except in [Wire], where they are sequences of 16-bit code units. *)

From Stdlib Require Import Bool List String Ascii Arith ZArith NArith Lia.
From Stdlib Require Import Strings.Byte.
From Stdlib Require Import Floats.PrimFloat Numbers.Cyclic.Int63.Uint63.
From Stdlib Require Import Floats.SpecFloat Floats.FloatOps Floats.FloatAxioms.
From Stdlib Require Import Numbers.DecimalString.
Import ListNotations.

Local Open Scope string_scope.
Local Open Scope list_scope.

(* ================================================================== *)
(** ** JavaScript values *)

Module Js.

Set Warnings "-register-all".

Inductive JsValue : Type :=
| JUndefined
| JNull
| JBool (b : bool)
| JNum (x : float)
| JStr (s : string)
| JArr (items : list JsValue)
| JObj (fields : list (string * JsValue)).

(** ToBoolean: [undefined], [null], [false], [0], [-0], [NaN] and the empty
    string are falsy, everything else (every array and object) is truthy. *)
Definition truthy (v : JsValue) : bool :=
  match v with
  | JUndefined | JNull => false
  | JBool b => b
  | JNum x => negb (PrimFloat.eqb x 0%float || PrimFloat.is_nan x)
  | JStr s => negb (String.eqb s "")
  | JArr _ | JObj _ => true
  end.

(** [a || b] *)
Definition or_else (a b : JsValue) : JsValue := if truthy a then a else b.

(** [a && b] *)
Definition and_then (a b : JsValue) : JsValue := if truthy a then b else a.

Fixpoint assoc (k : string) (fields : list (string * JsValue)) : JsValue :=
  match fields with
  | [] => JUndefined
  | (k', v) :: rest => if String.eqb k k' then v else assoc k rest
  end.

(** [v.k] for the property names the program reads ([type], [error],
    [frame_number], [bounding_box], ...): none of them is a property of a
    primitive or of an array, so only objects answer; on [null] and
    [undefined] the access throws a TypeError ([None]). *)
Definition get (v : JsValue) (k : string) : option JsValue :=
  match v with
  | JUndefined | JNull => None
  | JObj fields => Some (assoc k fields)
  | _ => Some JUndefined
  end.

(** [v?.k]: [undefined] on [null] and [undefined] instead of throwing. *)
Definition get_opt (v : JsValue) (k : string) : JsValue :=
  match get v k with
  | Some x => x
  | None => JUndefined
  end.

(** [v === 'lit'] for a string literal. *)
Definition is_str (v : JsValue) (lit : string) : bool :=
  match v with
  | JStr s => String.eqb s lit
  | _ => false
  end.

(** ToNumber on the primitives; strings, arrays and objects go through the
    runtime's string-to-number conversion, which is a parameter. *)
Definition to_number (ToNumber_other : JsValue -> float) (v : JsValue) : float :=
  match v with
  | JUndefined => PrimFloat.nan
  | JNull => 0%float
  | JBool true => 1%float
  | JBool false => 0%float
  | JNum x => x
  | _ => ToNumber_other v
  end.

(** White space and line terminators of [String.prototype.trim] among the
    code units below 256: TAB, LF, VT, FF, CR, SP, NBSP. *)
Definition is_white (c : ascii) : bool :=
  match nat_of_ascii c with
  | 9 | 10 | 11 | 12 | 13 | 32 | 160 => true
  | _ => false
  end.

Fixpoint trimStart (s : string) : string :=
  match s with
  | EmptyString => EmptyString
  | String c rest => if is_white c then trimStart rest else s
  end.

Fixpoint trimEnd (s : string) : string :=
  match s with
  | EmptyString => EmptyString
  | String c rest =>
      match trimEnd rest with
      | EmptyString => if is_white c then EmptyString else String c EmptyString
      | t => String c t
      end
  end.

Definition trim (s : string) : string := trimStart (trimEnd s).

(** [s.split(sep)] for a one-character separator: never empty, [""] splits
    into [[""]]. *)
Fixpoint split (sep : ascii) (s : string) : list string :=
  match s with
  | EmptyString => [EmptyString]
  | String c rest =>
      if Ascii.eqb c sep then EmptyString :: split sep rest
      else match split sep rest with
           | [] => [String c EmptyString]
           | h :: t => String c h :: t
           end
  end.

Definition LF : ascii := "010"%char.

End Js.

(* ================================================================== *)
(** ** A reference [JSON.parse] for a fragment of JSON

    The development is parametric in [JSON.parse]. To run it on concrete
    texts, [Json.parse] reads the fragment of JSON made of objects, arrays,
    string literals without escapes, integer literals of at most fifteen
    digits, [true], [false] and [null], with JSON white space between tokens.
    It answers [None] on a text outside the fragment. *)

Module Json.
Import Js.

Definition quote : ascii := "034"%char.
Definition backslash : ascii := "092"%char.

Definition is_ws (c : ascii) : bool :=
  match nat_of_ascii c with
  | 9 | 10 | 13 | 32 => true
  | _ => false
  end.

Fixpoint skip_ws (s : string) : string :=
  match s with
  | EmptyString => EmptyString
  | String c rest => if is_ws c then skip_ws rest else s
  end.

Definition digit_of (c : ascii) : option Z :=
  let n := nat_of_ascii c in
  if (48 <=? n)%nat && (n <=? 57)%nat then Some (Z.of_nat (n - 48)) else None.

(** The characters of a string literal up to its closing quote. *)
Fixpoint scan_string (s : string) : option (string * string) :=
  match s with
  | EmptyString => None
  | String c rest =>
      if Ascii.eqb c quote then Some (EmptyString, rest)
      else if Ascii.eqb c backslash then None
      else if (nat_of_ascii c <? 32)%nat then None
      else match scan_string rest with
           | Some (body, rest') => Some (String c body, rest')
           | None => None
           end
  end.

(** The digits at the head of [s]: their value, their number, the rest. *)
Fixpoint scan_digits (s : string) (acc : Z) (count : nat) : Z * nat * string :=
  match s with
  | EmptyString => (acc, count, s)
  | String c rest =>
      match digit_of c with
      | Some d => scan_digits rest (10 * acc + d)%Z (S count)
      | None => (acc, count, s)
      end
  end.

Definition starts_number_tail (s : string) : bool :=
  match s with
  | String c _ => Ascii.eqb c "."%char || Ascii.eqb c "e"%char || Ascii.eqb c "E"%char
  | EmptyString => false
  end.

(** An integer literal: no leading zero, no fraction, no exponent. *)
Definition scan_int (s : string) : option (float * string) :=
  let '(z, count, rest) := scan_digits s 0%Z 0 in
  let leading_zero :=
    match s with
    | String c _ => Ascii.eqb c "0"%char && (1 <? count)%nat
    | EmptyString => false
    end in
  if (count =? 0)%nat || (15 <? count)%nat || leading_zero || starts_number_tail rest
  then None
  else Some (PrimFloat.of_uint63 (Uint63.of_Z z), rest).

Fixpoint strip_prefix (p s : string) : option string :=
  match p, s with
  | EmptyString, _ => Some s
  | String a p', String b s' => if Ascii.eqb a b then strip_prefix p' s' else None
  | String _ _, EmptyString => None
  end.

(** A later member with the same name replaces the value of the earlier. *)
Fixpoint set_field (k : string) (v : JsValue) (fields : list (string * JsValue))
  : list (string * JsValue) :=
  match fields with
  | [] => [(k, v)]
  | (k', v') :: rest =>
      if String.eqb k k' then (k', v) :: rest else (k', v') :: set_field k v rest
  end.

Fixpoint parse_value (fuel : nat) (s : string) : option (JsValue * string) :=
  match fuel with
  | O => None
  | S fuel' =>
      match skip_ws s with
      | EmptyString => None
      | String c rest =>
          if Ascii.eqb c "{"%char then
            match skip_ws rest with
            | String "}"%char rest' => Some (JObj [], rest')
            | _ => parse_members fuel' rest []
            end
          else if Ascii.eqb c "["%char then
            match skip_ws rest with
            | String "]"%char rest' => Some (JArr [], rest')
            | _ => parse_elements fuel' rest []
            end
          else if Ascii.eqb c quote then
            match scan_string rest with
            | Some (body, rest') => Some (JStr body, rest')
            | None => None
            end
          else if Ascii.eqb c "-"%char then
            match scan_int rest with
            | Some (x, rest') => Some (JNum (PrimFloat.opp x), rest')
            | None => None
            end
          else if Ascii.eqb c "t"%char then
            option_map (fun r => (JBool true, r)) (strip_prefix "rue" rest)
          else if Ascii.eqb c "f"%char then
            option_map (fun r => (JBool false, r)) (strip_prefix "alse" rest)
          else if Ascii.eqb c "n"%char then
            option_map (fun r => (JNull, r)) (strip_prefix "ull" rest)
          else
            match scan_int (String c rest) with
            | Some (x, rest') => Some (JNum x, rest')
            | None => None
            end
      end
  end
with parse_members (fuel : nat) (s : string) (acc : list (string * JsValue))
  : option (JsValue * string) :=
  match fuel with
  | O => None
  | S fuel' =>
      match skip_ws s with
      | String c rest =>
          if Ascii.eqb c quote then
            match scan_string rest with
            | Some (key, rest1) =>
                match skip_ws rest1 with
                | String ":"%char rest2 =>
                    match parse_value fuel' rest2 with
                    | Some (v, rest3) =>
                        match skip_ws rest3 with
                        | String ","%char rest4 =>
                            parse_members fuel' rest4 (set_field key v acc)
                        | String "}"%char rest4 =>
                            Some (JObj (set_field key v acc), rest4)
                        | _ => None
                        end
                    | None => None
                    end
                | _ => None
                end
            | None => None
            end
          else None
      | EmptyString => None
      end
  end
with parse_elements (fuel : nat) (s : string) (acc : list JsValue)
  : option (JsValue * string) :=
  match fuel with
  | O => None
  | S fuel' =>
      match parse_value fuel' s with
      | Some (v, rest) =>
          match skip_ws rest with
          | String ","%char rest' => parse_elements fuel' rest' (acc ++ [v])
          | String "]"%char rest' => Some (JArr (acc ++ [v]), rest')
          | _ => None
          end
      | None => None
      end
  end.

(** Every call consumes a character, so the length of the text is fuel
    enough. The whole text must be one value. *)
Definition parse (s : string) : option JsValue :=
  match parse_value (S (String.length s)) s with
  | Some (v, rest) =>
      match skip_ws rest with
      | EmptyString => Some v
      | _ => None
      end
  | None => None
  end.

(** Example texts are written with apostrophes where JSON has double
    quotes. *)
Fixpoint dq (s : string) : string :=
  match s with
  | EmptyString => EmptyString
  | String c rest => String (if Ascii.eqb c "'"%char then quote else c) (dq rest)
  end.

Definition nl : string := String LF EmptyString.

End Json.

(* ================================================================== *)
(** ** VideoStreamingDetection *)

Module Streaming.
Import Js.

(** The six [useState] cells of the component. [error] and [metadata] hold
    whatever value the stream handed to their setters. *)
Record State : Type := mkState {
  isProcessing : bool;
  metadata : JsValue;
  currentFrame : JsValue;
  allFrames : list JsValue;
  error : JsValue;
  progress : float
}.

(** [useState] initial values. *)
Definition initial : State :=
  {| isProcessing := false; metadata := JNull; currentFrame := JNull;
     allFrames := []; error := JNull; progress := 0%float |}.

Definition setIsProcessing (b : bool) (s : State) : State :=
  {| isProcessing := b; metadata := metadata s; currentFrame := currentFrame s;
     allFrames := allFrames s; error := error s; progress := progress s |}.

Definition setMetadata (m : JsValue) (s : State) : State :=
  {| isProcessing := isProcessing s; metadata := m; currentFrame := currentFrame s;
     allFrames := allFrames s; error := error s; progress := progress s |}.

Definition setCurrentFrame (f : JsValue) (s : State) : State :=
  {| isProcessing := isProcessing s; metadata := metadata s; currentFrame := f;
     allFrames := allFrames s; error := error s; progress := progress s |}.

(** [setAllFrames] takes an updater, as in [setAllFrames(prev => ...)]. *)
Definition setAllFrames (upd : list JsValue -> list JsValue) (s : State) : State :=
  {| isProcessing := isProcessing s; metadata := metadata s; currentFrame := currentFrame s;
     allFrames := upd (allFrames s); error := error s; progress := progress s |}.

Definition setError (e : JsValue) (s : State) : State :=
  {| isProcessing := isProcessing s; metadata := metadata s; currentFrame := currentFrame s;
     allFrames := allFrames s; error := e; progress := progress s |}.

Definition setProgress (p : float) (s : State) : State :=
  {| isProcessing := isProcessing s; metadata := metadata s; currentFrame := currentFrame s;
     allFrames := allFrames s; error := error s; progress := p |}.

(** The arm of the [if / else if] chain a parsed record selects. *)
Inductive Branch : Type :=
| OnMetadata | OnFrameResult | OnComplete | OnError | NoBranch.

(** The chain of tests on [data.type] and [data.error]; [None] when reading
    [data.type] throws ([data] is [null]). *)
Definition dispatch (data : JsValue) : option Branch :=
  match get data "type" with
  | None => None
  | Some ty =>
      Some (if is_str ty "metadata" then OnMetadata
            else if is_str ty "frame_result" then OnFrameResult
            else if is_str ty "complete" then OnComplete
            else if truthy (get_opt data "error") then OnError
            else NoBranch)
  end.

Section Runtime.

(** [JSON.parse]: [None] when it throws a SyntaxError. *)
Variable JSON_parse : string -> option JsValue.
(** ToNumber on strings, arrays and objects. *)
Variable ToNumber_other : JsValue -> float.

(** [(data.frame_number / metadata.frame_count) * 100] *)
Definition progress_of (data md : JsValue) : float :=
  PrimFloat.mul
    (PrimFloat.div (to_number ToNumber_other (get_opt data "frame_number"))
                   (to_number ToNumber_other (get_opt md "frame_count")))
    100%float.

(** The body of the [try] block after [JSON.parse] succeeded. [md] is the
    [metadata] constant of the render whose closure is running: the setters
    never change it. An exception ([data] is [null], or [drawDetections]
    throws after the setters ran) is caught by the loop's [catch], which only
    logs; [drawDetections] paints the canvas and touches no state cell. *)
Definition handle_record (md : JsValue) (data : JsValue) (s : State) : State :=
  match dispatch data with
  | None => s
  | Some OnMetadata => setMetadata data s
  | Some OnFrameResult =>
      let s1 := setCurrentFrame data s in
      let s2 := setAllFrames (fun prev => prev ++ [data]) s1 in
      if truthy md then setProgress (progress_of data md) s2 else s2
  | Some OnComplete => setProgress 100%float (setIsProcessing false s)
  | Some OnError => setIsProcessing false (setError (get_opt data "error") s)
  | Some NoBranch => s
  end.

(** The body of [for (const line of lines)]. *)
Definition handle_line (md : JsValue) (line : string) (s : State) : State :=
  if String.eqb (trim line) "" then s
  else match JSON_parse line with
       | Some data => handle_record md data s
       | None => s
       end.

(** One iteration of [while (true)] after a read that was not [done];
    [chunk] is the text [new TextDecoder().decode(value)]. *)
Definition read_chunk (md : JsValue) (chunk : string) (buffer : string) (s : State)
  : string * State :=
  let buffer1 := (buffer ++ chunk)%string in
  let lines := split LF buffer1 in
  let buffer2 := last lines "" in
  (buffer2, fold_left (fun st line => handle_line md line st) (removelast lines) s).

(** The [while] loop over the successive reads. *)
Fixpoint processStream (md : JsValue) (chunks : list string) (buffer : string)
  (s : State) : string * State :=
  match chunks with
  | [] => (buffer, s)
  | chunk :: rest =>
      let '(buffer', s') := read_chunk md chunk buffer s in
      processStream md rest buffer' s'
  end.

(** How the reads of a response body end. *)
Inductive StreamEnd : Type :=
| Done
| ReadRejected (message : string).

(** What [fetch] answers. *)
Inductive FetchOutcome : Type :=
| FetchRejected (message : string)
| Responded (ok : bool) (status : nat) (body : option (list string * StreamEnd)).

Definition status_text (status : nat) : string :=
  NilEmpty.string_of_uint (Nat.to_uint status).

(** The five setter calls that open [startStreamingDetection]. *)
Definition reset (s : State) : State :=
  setProgress 0%float
    (setCurrentFrame JNull
       (setAllFrames (fun _ => [])
          (setError JNull (setIsProcessing true s)))).

Definition fail_start (message : string) (s : State) : State :=
  setIsProcessing false
    (setError (JStr ("Failed to start streaming: " ++ message)%string) s).

(** [startStreamingDetection] of a render whose [metadata] is [md]. *)
Definition startStreamingDetection (md : JsValue) (resp : FetchOutcome) (s : State)
  : State :=
  let s0 := reset s in
  match resp with
  | FetchRejected message => fail_start message s0
  | Responded false status _ =>
      fail_start ("HTTP error! status: " ++ status_text status)%string s0
  | Responded true _ None =>
      fail_start "Response body reader could not be created" s0
  | Responded true _ (Some (chunks, ending)) =>
      let s1 := snd (processStream md chunks "" s0) in
      match ending with
      | Done => s1
      | ReadRejected message =>
          setIsProcessing false
            (setError (JStr ("Stream processing error: " ++ message)%string) s1)
      end
  end.

End Runtime.

(** The component mounts with [metadata = null]; the [canplay] listener
    installed by the effect on [videoId] calls the handler of that render. *)
Definition on_canplay_after_mount JSON_parse ToNumber_other resp : State :=
  startStreamingDetection JSON_parse ToNumber_other JNull resp initial.

(** The Restart button calls the handler of the render that shows [s]. *)
Definition on_restart_click JSON_parse ToNumber_other resp (s : State) : State :=
  startStreamingDetection JSON_parse ToNumber_other (metadata s) resp s.

End Streaming.

(* ================================================================== *)
(** ** Several runs of the consumer on one component

    The handler is asynchronous: between two reads of one run the event
    loop may call the handler again (the [canplay] listener stays
    installed, and the Restart button is enabled as soon as the flag is
    cleared) and may resume the loop of an earlier invocation. The cells
    are shared; the line buffer and the captured [metadata] belong to each
    loop. Between two [await]s a loop runs without interruption. *)

Module Overlap.
Import Js Streaming.

(** A [processStream] loop waiting for its next read. *)
Record Loop : Type := mkLoop {
  closure_metadata : JsValue;
  buffer : string
}.

Record Component : Type := mkComponent {
  cells : State;
  loops : list Loop
}.

Definition mounted : Component := {| cells := initial; loops := [] |}.

Inductive Event : Type :=
(** The handler is called by a render whose [metadata] is [md], and the
    fetch answers with a readable body. *)
| Invoke (md : JsValue)
(** The pending read of the [i]-th loop started so far resolves with the
    text [chunk]. *)
| Read (i : nat) (chunk : string).

Fixpoint set_nth {A : Type} (i : nat) (x : A) (l : list A) : list A :=
  match l, i with
  | [], _ => []
  | _ :: rest, O => x :: rest
  | h :: rest, S j => h :: set_nth j x rest
  end.

Section Runtime.

Variable JSON_parse : string -> option JsValue.
Variable ToNumber_other : JsValue -> float.

Definition step (c : Component) (e : Event) : Component :=
  match e with
  | Invoke md =>
      {| cells := reset (cells c); loops := loops c ++ [mkLoop md ""] |}
  | Read i chunk =>
      match nth_error (loops c) i with
      | None => c
      | Some l =>
          let '(buffer', s') :=
            read_chunk JSON_parse ToNumber_other (closure_metadata l) chunk
              (buffer l) (cells c) in
          {| cells := s';
             loops := set_nth i (mkLoop (closure_metadata l) buffer') (loops c) |}
      end
  end.

Definition exec (events : list Event) (c : Component) : Component :=
  fold_left step events c.

(** An invocation followed by reads of its own loop only. *)
Definition own_run (md : JsValue) (chunks : list string) (c : Component)
  : list Event :=
  Invoke md :: map (Read (List.length (loops c))) chunks.

End Runtime.

End Overlap.

(* ================================================================== *)
(** ** AIInferencePanel: [processUploadedVideo] *)

Module BatchDetection.
Import Js.

Record BoundingBox : Type := mkBox {
  x : JsValue; y : JsValue; width : JsValue; height : JsValue
}.

Record Detection : Type := mkDetection {
  id : JsValue;
  label : JsValue;
  confidence : JsValue;
  boundingBox : BoundingBox;
  severity : JsValue;
  timestamp : JsValue;
  frame_number : JsValue;
  fps : JsValue
}.

(** The arrow function mapped over [result.detections]. [rnd] is what
    [Math.random().toString()] answers and [now] what
    [new Date().toISOString()] answers, should the defaults be needed.
    [None]: reading a property of [null] or [undefined] throws. *)
Definition formatDetection (rnd now : string) (detection : JsValue) : option Detection :=
  match get detection "id" with
  | None => None
  | Some id_ =>
      let field := get_opt detection in
      let box := field "bounding_box" in
      Some {| id := or_else id_ (JStr rnd);
              label := or_else (field "label") (JStr "Unknown");
              confidence := or_else (field "confidence") (JNum 0%float);
              boundingBox :=
                {| x := or_else (get_opt box "x") (JNum 0%float);
                   y := or_else (get_opt box "y") (JNum 0%float);
                   width := or_else (get_opt box "width") (JNum 0%float);
                   height := or_else (get_opt box "height") (JNum 0%float) |};
              severity := or_else (field "severity") (JStr "medium");
              timestamp := or_else (field "timestamp") (JStr now);
              frame_number := field "frame_number";
              fps := field "fps" |}
  end.

(** [Array.prototype.map] with the arrow function above; the [i]-th call
    draws its own random number and date. The first throwing call aborts
    the whole map. *)
Fixpoint map_format (rnd now : nat -> string) (i : nat) (items : list JsValue)
  : option (list Detection) :=
  match items with
  | [] => Some []
  | d :: rest =>
      match formatDetection (rnd i) (now i) d with
      | None => None
      | Some f =>
          match map_format rnd now (S i) rest with
          | None => None
          | Some fs => Some (f :: fs)
          end
      end
  end.

(** The cells the handler writes, and the messages given to [alert]. *)
Record Panel : Type := mkPanel {
  detections : list Detection;
  hasProcessedVideo : bool;
  alerts : list string
}.

Definition show_alert (message : string) (p : Panel) : Panel :=
  {| detections := detections p; hasProcessedVideo := hasProcessedVideo p;
     alerts := alerts p ++ [message] |}.

(** What the batch-detection call answers. *)
Inductive BatchResponse : Type :=
| FetchRejected
| NotOk (errorText : string)
| OkJson (result : option JsValue).

Definition msg_exception : string :=
  "Error processing video. Please try again or use a different video file.".
Definition msg_no_detections : string :=
  "No detections found in the video. Please try a different video or adjust the confidence threshold.".

Definition processUploadedVideo (rnd now : nat -> string) (resp : BatchResponse)
  (p : Panel) : Panel :=
  match resp with
  | FetchRejected => show_alert msg_exception p
  | NotOk errorText => show_alert ("Failed to process video: " ++ errorText)%string p
  | OkJson None => show_alert msg_exception p
  | OkJson (Some result) =>
      let dets := and_then result (get_opt result "detections") in
      if truthy dets then
        match dets with
        | JArr items =>
            match map_format rnd now 0 items with
            | Some formatted =>
                {| detections := formatted; hasProcessedVideo := true;
                   alerts := alerts p |}
            | None => show_alert msg_exception p
            end
        | _ => show_alert msg_exception p
        end
      else show_alert msg_no_detections p
  end.

End BatchDetection.

(* ================================================================== *)
(** ** Dashboard/AlertPanel *)

Module AlertPanel.

Inductive Severity : Type := critical | high | medium | low.
Inductive Status : Type := new | acknowledged | resolved.

Definition status_name (st : Status) : string :=
  match st with
  | new => "new"
  | acknowledged => "acknowledged"
  | resolved => "resolved"
  end.

(** [timestamp] is in milliseconds, [confidence] a percentage. *)
Record Alert : Type := mkAlert {
  id : string;
  title : string;
  description : string;
  timestamp : Z;
  severity : Severity;
  confidence : Z;
  location : string;
  status : Status;
  type : string
}.

(** The mock data; [now] is [Date.now()] when the module is loaded. *)
Definition defaultAlerts (now : Z) : list Alert :=
  [ mkAlert "1" "Fire Detected"
      "Potential wildfire detected in sector A-7 with high heat signature."
      (now - 1000 * 60 * 5) critical 94 "Sector A-7, North Ridge" new "fire";
    mkAlert "2" "Unauthorized Vehicle"
      "Unidentified vehicle detected in restricted area near the perimeter fence."
      (now - 1000 * 60 * 15) high 87 "Perimeter Zone B, East Entrance"
      acknowledged "intrusion";
    mkAlert "3" "Crowd Formation"
      "Unusual crowd density detected in public area exceeding safety thresholds."
      (now - 1000 * 60 * 30) medium 76 "Central Plaza, Main Entrance" new "crowd";
    mkAlert "4" "Water Level Rising"
      "Potential flood risk detected with water levels rising in drainage area."
      (now - 1000 * 60 * 45) high 82 "Drainage Basin C, South Sector" new "flood";
    mkAlert "5" "Smoke Detection"
      "Smoke signature detected in industrial zone, potential equipment malfunction."
      (now - 1000 * 60 * 60) medium 68 "Industrial Zone D, Building 7"
      resolved "smoke";
    mkAlert "6" "Structural Anomaly"
      "Potential structural damage detected on bridge support column."
      (now - 1000 * 60 * 90) low 62 "North Bridge, Support Column 3"
      acknowledged "structural" ]%Z.

(** The buttons an [AlertItem] may render. *)
Inductive Button : Type := Acknowledge | Resolve | ViewDetails.

Definition is_new (a : Alert) : bool :=
  match status a with new => true | _ => false end.
Definition is_acknowledged (a : Alert) : bool :=
  match status a with acknowledged => true | _ => false end.

Definition buttons (a : Alert) : list Button :=
  (if is_new a then [Acknowledge] else [])
  ++ (if is_acknowledged a then [Resolve] else [])
  ++ [ViewDetails].

Section Panel.

(** Whatever the callbacks of the parent act on. *)
Variable World : Type.

Record Props : Type := mkProps {
  alerts : list Alert;
  onAcknowledge : string -> World -> World;
  onResolve : string -> World -> World;
  onViewDetails : string -> World -> World
}.

(** The destructuring defaults of the component: [defaultAlerts] and three
    handlers [() => {}]. *)
Definition with_defaults (now : Z)
  (alerts_ : option (list Alert))
  (onAcknowledge_ onResolve_ onViewDetails_ : option (string -> World -> World))
  : Props :=
  let noop := fun (_ : string) (w : World) => w in
  {| alerts := match alerts_ with Some l => l | None => defaultAlerts now end;
     onAcknowledge := match onAcknowledge_ with Some f => f | None => noop end;
     onResolve := match onResolve_ with Some f => f | None => noop end;
     onViewDetails := match onViewDetails_ with Some f => f | None => noop end |}.

Definition filteredAlerts (props : Props) (activeTab : string) : list Alert :=
  if String.eqb activeTab "all" then alerts props
  else filter (fun a => String.eqb (status_name (status a)) activeTab) (alerts props).

Definition criticalCount (props : Props) : nat :=
  List.length (filter (fun a => match severity a with critical => is_new a | _ => false end)
                 (alerts props)).

(** The [onClick] of a button of the item that shows [a]. *)
Definition onClick (props : Props) (a : Alert) (b : Button) (w : World) : World :=
  match b with
  | Acknowledge => onAcknowledge props (id a) w
  | Resolve => onResolve props (id a) w
  | ViewDetails => onViewDetails props (id a) w
  end.

(** A parent renders the panel with props computed from its own state. *)
Definition Parent : Type := World -> Props.

(** Clicking button [b] of the item of [a], if the item renders it. *)
Definition click (parent : Parent) (a : Alert) (b : Button) (w : World) : option World :=
  if existsb (fun b' => match b, b' with
                        | Acknowledge, Acknowledge | Resolve, Resolve
                        | ViewDetails, ViewDetails => true
                        | _, _ => false
                        end) (buttons a)
  then Some (onClick (parent w) a b w)
  else None.

(** The alerts the panel lists when the parent is in state [w]. *)
Definition shown (parent : Parent) (activeTab : string) (w : World) : list Alert :=
  filteredAlerts (parent w) activeTab.

End Panel.

Arguments alerts {World} _.
Arguments onAcknowledge {World} _ _ _.
Arguments onResolve {World} _ _ _.
Arguments onViewDetails {World} _ _ _.
Arguments with_defaults {World} _ _ _ _ _.
Arguments filteredAlerts {World} _ _.
Arguments onClick {World} _ _ _ _.
Arguments click {World} _ _ _ _.
Arguments shown {World} _ _ _.

(** [home.tsx] renders [<AlertPanel />]: no prop is passed, whatever the
    state of the page. *)
Definition home (now : Z) : Parent unit :=
  fun _ => with_defaults now None None None None.

End AlertPanel.

(* ================================================================== *)
(** ** VideoAnalysisPage: [handleFileUpload] *)

Module VideoAnalysisPage.
Import Js.

Record State : Type := mkState {
  videoId : JsValue;
  uploadedVideoId : JsValue;
  isUploading : bool;
  uploadError : option string
}.

Definition initial : State :=
  {| videoId := JStr ""; uploadedVideoId := JStr ""; isUploading := false;
     uploadError := None |}.

Definition setVideoId (v : JsValue) (s : State) : State :=
  {| videoId := v; uploadedVideoId := uploadedVideoId s;
     isUploading := isUploading s; uploadError := uploadError s |}.
Definition setUploadedVideoId (v : JsValue) (s : State) : State :=
  {| videoId := videoId s; uploadedVideoId := v;
     isUploading := isUploading s; uploadError := uploadError s |}.
Definition setIsUploading (b : bool) (s : State) : State :=
  {| videoId := videoId s; uploadedVideoId := uploadedVideoId s;
     isUploading := b; uploadError := uploadError s |}.
Definition setUploadError (e : option string) (s : State) : State :=
  {| videoId := videoId s; uploadedVideoId := uploadedVideoId s;
     isUploading := isUploading s; uploadError := e |}.

(** What [axios.post] does: it rejects on a transport failure and on a
    status outside 2xx, otherwise it resolves with [response.data]. *)
Inductive PostOutcome : Type :=
| Rejected
| Resolved (data : JsValue).

Definition msg_no_id : string := "Upload successful but no video ID was returned".
Definition msg_failed : string := "Failed to upload video. Please try again.".

(** [file] is [event.target.files?.[0]]. *)
Definition handleFileUpload {File : Type} (file : option File) (outcome : PostOutcome)
  (s : State) : State :=
  match file with
  | None => s
  | Some _ =>
      let s1 := setUploadError None (setIsUploading true s) in
      let s2 :=
        match outcome with
        | Resolved data =>
            if truthy (and_then data (get_opt data "video_id")) then
              setVideoId (get_opt data "video_id")
                (setUploadedVideoId (get_opt data "video_id") s1)
            else setUploadError (Some msg_no_id) s1
        | Rejected => setUploadError (Some msg_failed) s1
        end in
      setIsUploading false s2
  end.

End VideoAnalysisPage.

(* ================================================================== *)
(** ** AIInferencePanel: the frame filter, the label filter, the upload *)

Module InferencePanel.
Import Js BatchDetection.

Section Closest.

(** The detections of the panel, read through the one field
    [getClosestDetections] looks at; it is declared [frame_number?: number],
    so it is absent or a number. *)
Variable D : Type.
Variable frame_number_of : D -> option float.

(** The body of [detections.forEach]: [acc] is [(minDiff, closestFrame)],
    with [None] for [null]. *)
Definition visit (currentFrame : float) (acc : float * option float) (d : D)
  : float * option float :=
  match frame_number_of d with
  | None => acc
  | Some f =>
      let diff := PrimFloat.abs (PrimFloat.sub f currentFrame) in
      if PrimFloat.ltb diff (fst acc) then (diff, Some f) else acc
  end.

(** [closestFrame] after the [forEach], started from [Infinity] and
    [null]. *)
Definition closestFrame (currentFrame : float) (detections : list D) : option float :=
  snd (fold_left (visit currentFrame) detections (PrimFloat.infinity, None)).

(** [d.frame_number === closestFrame]: [undefined] and a number are never
    [null]; two numbers compare as numbers. *)
Definition same_frame (fn closest : option float) : bool :=
  match fn, closest with
  | Some a, Some b => PrimFloat.eqb a b
  | _, _ => false
  end.

Definition has_frame_number (d : D) : bool :=
  match frame_number_of d with
  | Some _ => true
  | None => false
  end.

Definition getClosestDetections (currentFrame : float) (detections : list D) : list D :=
  match detections with
  | [] => []
  | _ :: _ =>
      if negb (existsb has_frame_number detections) then detections
      else filter (fun d => same_frame (frame_number_of d)
                              (closestFrame currentFrame detections))
             detections
  end.

End Closest.

Arguments visit {D} _ _ _ _.
Arguments closestFrame {D} _ _ _.
Arguments has_frame_number {D} _ _.
Arguments getClosestDetections {D} _ _ _.

(** [excludedLabels.includes(label)] *)
Definition includes (excludedLabels : list string) (label : string) : bool :=
  existsb (String.eqb label) excludedLabels.

(** The [onChange] of the checkbox of [label]; [checked] is
    [e.target.checked]. *)
Definition onExcludeChange (label : string) (checked : bool)
  (excludedLabels : list string) : list string :=
  if checked then excludedLabels ++ [label]
  else filter (fun l => negb (String.eqb l label)) excludedLabels.

(** [String.prototype.toLowerCase] on code units below 256: the letters A
    to Z, and the capital letters from 192 to 222 but for the
    multiplication sign 215, move up by 32. *)
Definition lower_char (c : ascii) : ascii :=
  let n := nat_of_ascii c in
  if ((65 <=? n) && (n <=? 90)
      || (192 <=? n) && (n <=? 222) && negb (n =? 215))%nat
  then ascii_of_nat (n + 32) else c.

Fixpoint toLowerCase (s : string) : string :=
  match s with
  | EmptyString => EmptyString
  | String c rest => String (lower_char c) (toLowerCase rest)
  end.

(** The [onClick] of the exclude button of a listed detection. *)
Definition onExcludeClick (detection_label : string) (excludedLabels : list string)
  : list string :=
  let label := toLowerCase detection_label in
  if negb (includes excludedLabels label) then excludedLabels ++ [label]
  else excludedLabels.

Inductive VideoType : Type := live | uploaded.

(** The cells [handleVideoUpload] and [processUploadedVideo] write. *)
Record View : Type := mkView {
  panel : Panel;
  uploadedVideo : option string;
  videoType : VideoType;
  isPlaying : bool
}.

(** The chosen file: its MIME type and the URL [URL.createObjectURL]
    makes for it. *)
Record File : Type := mkFile {
  file_type : string;
  object_url : string
}.

(** What the upload call answers; [UploadOk None] is a 2xx answer whose
    body [response.json()] rejects. *)
Inductive UploadResponse : Type :=
| UploadRejected
| UploadNotOk
| UploadOk (result : option JsValue).

(** The setters that open the handler, before the request. *)
Definition begin_upload (f : File) (v : View) : View :=
  {| panel := {| detections := []; hasProcessedVideo := false;
                 alerts := alerts (panel v) |};
     uploadedVideo := Some (object_url f);
     videoType := uploaded;
     isPlaying := false |}.

(** [handleVideoUpload]; [batch] is what the detection call answers, if the
    handler gets to make it. Every failure of the upload is caught and
    logged to the console only. *)
Definition handleVideoUpload (rnd now : nat -> string) (file : option File)
  (upload : UploadResponse) (batch : BatchResponse) (v : View) : View :=
  match file with
  | None => v
  | Some f =>
      if String.prefix "video/" (file_type f) then
        let v1 := begin_upload f v in
        match upload with
        | UploadOk (Some result) =>
            match get result "video_id" with
            | None => v1
            | Some videoId =>
                if truthy videoId then
                  {| panel := processUploadedVideo rnd now batch (panel v1);
                     uploadedVideo := uploadedVideo v1;
                     videoType := videoType v1;
                     isPlaying := isPlaying v1 |}
                else v1
            end
        | _ => v1
        end
      else v
  end.

Definition switchToLive (v : View) : View :=
  {| panel := panel v; uploadedVideo := None; videoType := live;
     isPlaying := true |}.

End InferencePanel.

(* ================================================================== *)
(** ** Home: the video quality button *)

Module Home.

Definition qualities : list string := ["HD"; "4K"; "SD"].

(** [Array.prototype.indexOf]: the first index, or -1. *)
Fixpoint indexOf_from (x : string) (l : list string) (i : Z) : Z :=
  match l with
  | [] => (-1)%Z
  | y :: rest => if String.eqb y x then i else indexOf_from x rest (i + 1)%Z
  end.

Definition indexOf (l : list string) (x : string) : Z := indexOf_from x l 0%Z.

(** [handleVideoQualityChange]: the value given to [setVideoQuality];
    [None] would be [undefined]. *)
Definition nextQuality (videoQuality : string) : option string :=
  let currentIndex := indexOf qualities videoQuality in
  let k := Z.rem (currentIndex + 1) (Z.of_nat (List.length qualities)) in
  if (k <? 0)%Z then None else nth_error qualities (Z.to_nat k).

End Home.

(* ================================================================== *)
(** ** The stream consumer on the bytes of the reads

    [processStream] once more, from the value of each read rather than
    from its decoded text, and with texts as sequences of 16-bit code units,
    so that the replacement character U+FFFD (65533) can be written. The
    dispatch and the cells are those of [Streaming]. *)

Module Wire.
Import Js Streaming.

(** A JavaScript string: its UTF-16 code units. *)
Definition Text : Type := list N.

(** The state of the UTF-8 decoder of the Encoding standard. *)
Record Decoder : Type := mkDecoder {
  code_point : N;
  bytes_seen : N;
  bytes_needed : N;
  lower : N;
  upper : N
}.

Definition fresh : Decoder :=
  {| code_point := 0; bytes_seen := 0; bytes_needed := 0;
     lower := 128; upper := 191 |}%N.

Definition replacement : N := 65533%N.

(** A byte met when no sequence is open: the new state and the code points
    emitted. *)
Definition lead (b : N) : Decoder * list N :=
  (if b <=? 127 then (fresh, [b])
   else if (194 <=? b) && (b <=? 223) then
     ({| code_point := N.land b 31; bytes_seen := 0; bytes_needed := 1;
         lower := 128; upper := 191 |}, [])
   else if (224 <=? b) && (b <=? 239) then
     ({| code_point := N.land b 15; bytes_seen := 0; bytes_needed := 2;
         lower := if b =? 224 then 160 else 128;
         upper := if b =? 237 then 159 else 191 |}, [])
   else if (240 <=? b) && (b <=? 244) then
     ({| code_point := N.land b 7; bytes_seen := 0; bytes_needed := 3;
         lower := if b =? 240 then 144 else 128;
         upper := if b =? 244 then 143 else 191 |}, [])
   else (fresh, [replacement]))%N.

(** One byte: a byte outside the expected range closes the open sequence
    with U+FFFD and is then read again as a lead byte. *)
Definition handle_byte (d : Decoder) (b : N) : Decoder * list N :=
  (if bytes_needed d =? 0 then lead b
   else if negb ((lower d <=? b) && (b <=? upper d)) then
     let '(d', out) := lead b in (d', replacement :: out)
   else
     let cp := N.lor (N.shiftl (code_point d) 6) (N.land b 63) in
     let seen := bytes_seen d + 1 in
     if seen =? bytes_needed d then (fresh, [cp])
     else ({| code_point := cp; bytes_seen := seen;
              bytes_needed := bytes_needed d; lower := 128; upper := 191 |},
           []))%N.

(** The bytes of one value; at its end an open sequence gives U+FFFD, as
    the decoder is not told that more is to come. *)
Fixpoint decode_bytes (d : Decoder) (bytes : list N) : list N :=
  match bytes with
  | [] => if (bytes_needed d =? 0)%N then [] else [replacement]
  | b :: rest =>
      let '(d', out) := handle_byte d b in out ++ decode_bytes d' rest
  end.

(** A leading byte order mark is not part of the text. *)
Definition strip_bom (code_points : list N) : list N :=
  match code_points with
  | cp :: rest => if (cp =? 65279)%N then rest else code_points
  | [] => []
  end.

(** A code point as UTF-16 code units. *)
Definition utf16 (cp : N) : list N :=
  (if cp <? 65536 then [cp]
   else [55296 + N.shiftr (cp - 65536) 10; 56320 + N.land (cp - 65536) 1023])%N.

(** [new TextDecoder().decode(value)]: a decoder made for this value
    alone. *)
Definition TextDecoder_decode (value : list byte) : Text :=
  flat_map utf16 (strip_bom (decode_bytes fresh (map Byte.to_N value))).

Definition LF : N := 10%N.

(** [s.split(sep)] for a separator of one code unit. *)
Fixpoint split (sep : N) (t : Text) : list Text :=
  match t with
  | [] => [[]]
  | u :: rest =>
      if N.eqb u sep then [] :: split sep rest
      else match split sep rest with
           | [] => [[u]]
           | h :: tl => (u :: h) :: tl
           end
  end.

(** White space and line terminators of [String.prototype.trim]. *)
Definition is_white (u : N) : bool :=
  ((9 <=? u) && (u <=? 13) || (u =? 32) || (u =? 160) || (u =? 5760)
   || (8192 <=? u) && (u <=? 8202) || (u =? 8232) || (u =? 8233)
   || (u =? 8239) || (u =? 8287) || (u =? 12288) || (u =? 65279))%N.

Fixpoint trimStart (t : Text) : Text :=
  match t with
  | [] => []
  | u :: rest => if is_white u then trimStart rest else t
  end.

Fixpoint trimEnd (t : Text) : Text :=
  match t with
  | [] => []
  | u :: rest =>
      match trimEnd rest with
      | [] => if is_white u then [] else [u]
      | kept => u :: kept
      end
  end.

Definition trim (t : Text) : Text := trimStart (trimEnd t).

Section Runtime.

(** [JSON.parse]: [None] when it throws a SyntaxError. *)
Variable JSON_parse : Text -> option JsValue.
Variable ToNumber_other : JsValue -> float.

(** The body of [for (const line of lines)]. *)
Definition handle_line (md : JsValue) (line : Text) (s : State) : State :=
  match trim line with
  | [] => s
  | _ :: _ =>
      match JSON_parse line with
      | Some data => handle_record ToNumber_other md data s
      | None => s
      end
  end.

(** One iteration of [while (true)] after a read that was not [done]. *)
Definition read_value (md : JsValue) (value : list byte) (buffer : Text)
  (s : State) : Text * State :=
  let chunk := TextDecoder_decode value in
  let buffer1 := buffer ++ chunk in
  let lines := split LF buffer1 in
  let buffer2 := last lines [] in
  (buffer2, fold_left (fun st line => handle_line md line st) (removelast lines) s).

(** The [while] loop over the values of the successive reads. *)
Fixpoint processStream (md : JsValue) (values : list (list byte)) (buffer : Text)
  (s : State) : Text * State :=
  match values with
  | [] => (buffer, s)
  | value :: rest =>
      let '(buffer', s') := read_value md value buffer s in
      processStream md rest buffer' s'
  end.

End Runtime.

(** The code units of a text of the other modules. *)
Definition units (s : string) : Text :=
  map N_of_ascii (list_ascii_of_string s).

End Wire.

(* ================================================================== *)
(** ** Vocabulary of the statements *)

Module Text.
Import Js.

Fixpoint has_char (c : ascii) (s : string) : bool :=
  match s with
  | EmptyString => false
  | String d rest => Ascii.eqb d c || has_char c rest
  end.

(** The concatenation of the texts of successive reads. *)
Fixpoint joined (chunks : list string) : string :=
  match chunks with
  | [] => EmptyString
  | c :: rest => (c ++ joined rest)%string
  end.

(** A line as the server writes it: its text and the terminating LF. *)
Definition terminated (line : string) : string :=
  (line ++ String LF EmptyString)%string.

(** The text made of the complete lines [ls] followed by an unterminated
    remainder. *)
Definition text_of (ls : list string) (remainder : string) : string :=
  (joined (map terminated ls) ++ remainder)%string.

Definition no_LF (s : string) : bool := negb (has_char LF s).

(** The lines of [t] that are terminated, and what follows the last LF. *)
Definition lines_of (t : string) : list string := removelast (split LF t).
Definition tail_of (t : string) : string := last (split LF t) EmptyString.

End Text.

(** What the loop body makes of a line. *)
Module Records.
Import Js Streaming.

Section Parsed.

Variable JSON_parse : string -> option JsValue.

(** The record [JSON.parse] gives for a line the loop does not skip as
    blank. *)
Definition line_record (line : string) : option JsValue :=
  if String.eqb (trim line) "" then None else JSON_parse line.

(** The arm of the chain a line ends in, if any. *)
Definition line_branch (line : string) : option Branch :=
  match line_record line with
  | Some data => dispatch data
  | None => None
  end.

Definition is_frame_result (data : JsValue) : bool :=
  match dispatch data with
  | Some OnFrameResult => true
  | _ => false
  end.

Definition is_error_line (line : string) : bool :=
  match line_branch line with
  | Some OnError => true
  | _ => false
  end.

(** The [frame_result] records among the lines, in the order of the
    lines. *)
Fixpoint frames_of (ls : list string) : list JsValue :=
  match ls with
  | [] => []
  | line :: rest =>
      match line_record line with
      | Some data =>
          if is_frame_result data then data :: frames_of rest else frames_of rest
      | None => frames_of rest
      end
  end.

End Parsed.

(** [data.type] is one of the three types the chain names. *)
Definition recognized (data : JsValue) : bool :=
  let ty := get_opt data "type" in
  is_str ty "metadata" || is_str ty "frame_result" || is_str ty "complete".

(** The arm that belongs to a recognized type. *)
Definition type_branch (data : JsValue) : Branch :=
  let ty := get_opt data "type" in
  if is_str ty "metadata" then OnMetadata
  else if is_str ty "frame_result" then OnFrameResult
  else OnComplete.

End Records.

(** What the normalisation promises for one field. *)
Module Defaults.
Import Js BatchDetection.

Definition is_nullish (v : JsValue) : bool :=
  match v with
  | JUndefined | JNull => true
  | _ => false
  end.

(** [out] is [raw || dflt]: the default when the field is absent, the
    field itself when it is truthy, the default again when it is present
    but falsy. *)
Definition defaulted (raw dflt out : JsValue) : Prop :=
  (raw = JUndefined -> out = dflt)
  /\ (truthy raw = true -> out = raw)
  /\ (truthy raw = false -> out = dflt).

(** The record [r] carries the box, severity and label of the raw
    detection [d], each with its default. *)
Definition normalized_from (d : JsValue) (r : Detection) : Prop :=
  let box := get_opt d "bounding_box" in
  defaulted (get_opt box "x") (JNum 0%float) (x (boundingBox r))
  /\ defaulted (get_opt box "y") (JNum 0%float) (y (boundingBox r))
  /\ defaulted (get_opt box "width") (JNum 0%float) (width (boundingBox r))
  /\ defaulted (get_opt box "height") (JNum 0%float) (height (boundingBox r))
  /\ defaulted (get_opt d "severity") (JStr "medium") (severity r)
  /\ defaulted (get_opt d "label") (JStr "Unknown") (label r).

End Defaults.

(** Texts and records used to run the development. *)
Module Samples.
Import Js.

(** A stand-in for ToNumber on strings, arrays and objects; the samples
    only hold numbers where numbers are read. *)
Definition to_number_other : JsValue -> float := fun _ => PrimFloat.nan.

Definition line (text : string) : string := (Json.dq text ++ Json.nl)%string.

Definition metadata_100 : string := "{'type':'metadata','frame_count':100}".
Definition frame_10 : string := "{'type':'frame_result','frame_number':10}".
Definition frame_20 : string := "{'type':'frame_result','frame_number':20}".
Definition frame_30 : string := "{'type':'frame_result','frame_number':30}".
Definition complete : string := "{'type':'complete'}".
Definition error_boom : string := "{'error':'boom'}".
Definition error_late : string := "{'error':'late'}".
Definition malformed : string := "{'type':'frame_result',".

Definition metadata_100_record : JsValue :=
  JObj [("type", JStr "metadata"); ("frame_count", JNum 100%float)].
Definition frame_10_record : JsValue :=
  JObj [("type", JStr "frame_result"); ("frame_number", JNum 10%float)].
Definition frame_20_record : JsValue :=
  JObj [("type", JStr "frame_result"); ("frame_number", JNum 20%float)].
Definition frame_30_record : JsValue :=
  JObj [("type", JStr "frame_result"); ("frame_number", JNum 30%float)].

(** A 200 response whose body arrives as [chunks] and then ends. *)
Definition ok_stream (chunks : list string) : Streaming.FetchOutcome :=
  Streaming.Responded true 200 (Some (chunks, Streaming.Done)).

(** The first run after the component mounted. *)
Definition first_run (chunks : list string) : Streaming.State :=
  Streaming.on_canplay_after_mount Json.parse to_number_other (ok_stream chunks).

End Samples.

(** The invariant of the scan of [getClosestDetections]. *)
Module ClosestScan.
Import InferencePanel.

Section Scan.

Variable D : Type.
Variable frame_number_of : D -> option float.
Variable currentFrame : float.

(** What the [forEach] has established after the detections [seen]: no
    frame number seen is strictly nearer than [minDiff]; and [closestFrame]
    is still [null] with [minDiff] infinite, or it is a frame number seen,
    at the finite distance [minDiff]. *)
Definition scanned (seen : list D) (acc : float * option float) : Prop :=
  (forall d f, In d seen -> frame_number_of d = Some f ->
               PrimFloat.ltb (PrimFloat.abs (PrimFloat.sub f currentFrame))
                 (fst acc) = false)
  /\ match snd acc with
     | None => fst acc = PrimFloat.infinity
     | Some c =>
         fst acc = PrimFloat.abs (PrimFloat.sub c currentFrame)
         /\ PrimFloat.ltb (fst acc) PrimFloat.infinity = true
         /\ exists d, In d seen /\ frame_number_of d = Some c
     end.

End Scan.

End ClosestScan.

(** Detections used to run the frame filter: an identifier and the
    [frame_number] field. *)
Module PanelSamples.

Definition four : list (nat * option float) :=
  [(1, Some 10%float); (2, Some 10%float); (3, Some 20%float); (4, None)].

Definition frame_of (d : nat * option float) : option float := snd d.

End PanelSamples.

(** What the upload of the inference panel hands to the detection call. *)
Module UploadOutcome.
Import Js InferencePanel.

(** The [video_id] with which [handleVideoUpload] goes on, if it does. *)
Definition video_id_of (upload : UploadResponse) : option JsValue :=
  match upload with
  | UploadOk (Some result) =>
      match get result "video_id" with
      | Some videoId => if truthy videoId then Some videoId else None
      | None => None
      end
  | _ => None
  end.

End UploadOutcome.

(** A metadata line whose [video_id] ends in the letter e with an acute
    accent (code unit 233, bytes 195 and 169 in UTF-8), and its bytes cut by
    the network between those two bytes. *)
Module WireSamples.
Import Wire.

Definition before_accent : string := Json.dq "{'type':'metadata','video_id':'caf".
Definition after_accent : string := Json.dq "'}".

Definition carried_line : Text :=
  units before_accent ++ [233%N] ++ units after_accent.

Definition first_read : list byte :=
  String.list_byte_of_string before_accent ++ [Byte.xc3].

Definition second_read : list byte :=
  [Byte.xa9] ++ String.list_byte_of_string after_accent ++ [Byte.x0a].

Definition garbled_line : Text :=
  units before_accent ++ [replacement; replacement] ++ units after_accent.

End WireSamples.

(** What a run leaves, in terms of the lines it received. *)
Module RunSummary.
Import Js Streaming Records.

Definition same_branch (a b : Branch) : bool :=
  match a, b with
  | OnMetadata, OnMetadata | OnFrameResult, OnFrameResult
  | OnComplete, OnComplete | OnError, OnError | NoBranch, NoBranch => true
  | _, _ => false
  end.

Section Parsed.

Variable JSON_parse : string -> option JsValue.

(** The line is dispatched to the arm [b]. *)
Definition takes (b : Branch) (line : string) : bool :=
  match line_branch JSON_parse line with
  | Some b' => same_branch b b'
  | None => false
  end.

(** The line is a complete record or an error record. *)
Definition clears_flag (line : string) : bool :=
  takes OnComplete line || takes OnError line.

(** The metadata records among the lines, in the order of the lines. *)
Fixpoint metadata_records (ls : list string) : list JsValue :=
  match ls with
  | [] => []
  | line :: rest =>
      match line_record JSON_parse line with
      | Some data =>
          match dispatch data with
          | Some OnMetadata => data :: metadata_records rest
          | _ => metadata_records rest
          end
      | None => metadata_records rest
      end
  end.

End Parsed.

(** The answers of [fetch] other than a body whose reads end with
    [done]. *)
Definition fails (resp : FetchOutcome) : bool :=
  match resp with
  | Responded true _ (Some (_, Done)) => false
  | _ => true
  end.

(** The chunks the loop [i] reads in a sequence of events. *)
Fixpoint reads_of (i : nat) (events : list Overlap.Event) : list string :=
  match events with
  | [] => []
  | Overlap.Read j chunk :: rest =>
      if Nat.eqb j i then chunk :: reads_of i rest else reads_of i rest
  | Overlap.Invoke _ :: rest => reads_of i rest
  end.

End RunSummary.

(* ================================================================== *)
(** ** Splitting and incremental reading *)

Section SplitFacts.
Import Js Text.

Variable sep : ascii.

Lemma split_not_nil (s : string) : split sep s <> [].
Proof.
  destruct s as [|c rest]; simpl; [discriminate|].
  destruct (Ascii.eqb c sep); [discriminate|].
  destruct (split sep rest); discriminate.
Qed.

Lemma removelast_cons_cons {A} (a b : A) (l : list A) :
  removelast (a :: b :: l) = a :: removelast (b :: l).
Proof. reflexivity. Qed.

(** Splitting a concatenation: the complete pieces of the first part stay,
    its last piece is continued by the second part. *)
Lemma split_app (a b : string) :
  split sep (a ++ b)%string
  = removelast (split sep a)
    ++ split sep (last (split sep a) EmptyString ++ b)%string.
Proof.
  induction a as [|c a IH]; [reflexivity|].
  cbn [String.append split].
  destruct (Ascii.eqb c sep) eqn:Hc.
  - rewrite IH. pose proof (split_not_nil a) as Hn.
    destruct (split sep a) as [|h t]; [congruence|]. reflexivity.
  - rewrite IH. pose proof (split_not_nil a) as Hn.
    destruct (split sep a) as [|h [|h' t]]; [congruence| |].
    + cbn [removelast last app String.append split]. rewrite Hc. reflexivity.
    + rewrite removelast_cons_cons.
      change (last (h :: h' :: t) EmptyString) with (last (h' :: t) EmptyString).
      change (last (String c h :: h' :: t) EmptyString)
        with (last (h' :: t) EmptyString).
      rewrite removelast_cons_cons. reflexivity.
Qed.

Lemma split_no_sep (s : string) :
  has_char sep s = false -> split sep s = [s].
Proof.
  induction s as [|c s IH]; [reflexivity|].
  cbn [has_char split]. intros H. apply orb_false_iff in H as [Hc Hs].
  rewrite Hc, (IH Hs). reflexivity.
Qed.

Lemma split_terminated (l t : string) :
  has_char sep l = false ->
  split sep (l ++ String sep t)%string = l :: split sep t.
Proof.
  induction l as [|c l IH]; cbn [has_char String.append split]; intros H.
  - rewrite Ascii.eqb_refl. reflexivity.
  - apply orb_false_iff in H as [Hc Hl]. rewrite Hc, (IH Hl). reflexivity.
Qed.

End SplitFacts.

Section LinesFacts.
Import Js Text.

Lemma append_assoc (a b c : string) :
  ((a ++ b) ++ c)%string = (a ++ (b ++ c))%string.
Proof. induction a as [|x a IH]; simpl; [reflexivity|now rewrite IH]. Qed.

Lemma append_empty_r (a : string) : (a ++ "")%string = a.
Proof. induction a as [|x a IH]; simpl; [reflexivity|now rewrite IH]. Qed.

Lemma last_app_nonempty {A} (l l' : list A) (d : A) :
  l' <> [] -> last (l ++ l') d = last l' d.
Proof.
  intros Hn. induction l as [|x l IH]; [reflexivity|].
  cbn [app]. destruct (l ++ l') eqn:E.
  - destruct l; [simpl in E; congruence | discriminate].
  - exact IH.
Qed.

Lemma last_cons_default {A} (l : list A) :
  forall a d : A, last (a :: l) d = last l a.
Proof.
  induction l as [|x l IH]; intros a d; [reflexivity|].
  change (last (a :: x :: l) d) with (last (x :: l) d).
  now rewrite !IH.
Qed.

Lemma lines_of_app (a b : string) :
  lines_of (a ++ b)%string = lines_of a ++ lines_of (tail_of a ++ b)%string.
Proof.
  unfold lines_of, tail_of. rewrite split_app.
  apply removelast_app, split_not_nil.
Qed.

Lemma tail_of_app (a b : string) :
  tail_of (a ++ b)%string = tail_of (tail_of a ++ b)%string.
Proof.
  unfold tail_of. rewrite split_app.
  apply last_app_nonempty, split_not_nil.
Qed.

(** The split of a text written line by line gives back the lines. *)
Lemma split_text_of (ls : list string) (remainder : string) :
  forallb no_LF ls = true -> no_LF remainder = true ->
  split LF (text_of ls remainder) = ls ++ [remainder].
Proof.
  unfold text_of, no_LF. intros Hls Hr.
  induction ls as [|l ls IH]; cbn [map joined app].
  - apply split_no_sep. now apply negb_true_iff in Hr.
  - cbn [forallb] in Hls. apply andb_true_iff in Hls as [Hl Hls].
    unfold terminated at 1. rewrite !append_assoc. cbn [String.append].
    rewrite split_terminated by now apply negb_true_iff in Hl.
    now rewrite (IH Hls).
Qed.

Lemma lines_of_text_of (ls : list string) (remainder : string) :
  forallb no_LF ls = true -> no_LF remainder = true ->
  lines_of (text_of ls remainder) = ls.
Proof.
  intros Hls Hr. unfold lines_of. rewrite split_text_of by assumption.
  apply removelast_last.
Qed.

Lemma tail_of_text_of (ls : list string) (remainder : string) :
  forallb no_LF ls = true -> no_LF remainder = true ->
  tail_of (text_of ls remainder) = remainder.
Proof.
  intros Hls Hr. unfold tail_of. rewrite split_text_of by assumption.
  apply last_last.
Qed.

End LinesFacts.

(* ================================================================== *)
(** ** The stream consumer *)

Section ProcessStreamFacts.
Import Js Text Streaming.

Variable JSON_parse : string -> option JsValue.
Variable ToNumber_other : JsValue -> float.
Variable md : JsValue.

Local Notation "'handle'" :=
  (fun st line => handle_line JSON_parse ToNumber_other md line st).
Local Notation "'run'" := (processStream JSON_parse ToNumber_other md).

(** The loop invariant: after the text [t] has been read, the buffer holds
    what follows the last LF of [t] and the state is the fold of the loop
    body over the terminated lines of [t]. *)
Lemma processStream_invariant (chunks : list string) :
  forall (t : string) (s0 : State),
    run chunks (tail_of t) (fold_left handle (lines_of t) s0)
    = (tail_of (t ++ joined chunks)%string,
       fold_left handle (lines_of (t ++ joined chunks)%string) s0).
Proof.
  induction chunks as [|chunk rest IH]; intros t s0.
  - cbn [processStream joined]. now rewrite append_empty_r.
  - cbn [processStream joined read_chunk].
    change (last (split LF (tail_of t ++ chunk)%string) "")
      with (tail_of (tail_of t ++ chunk)%string).
    change (removelast (split LF (tail_of t ++ chunk)%string))
      with (lines_of (tail_of t ++ chunk)%string).
    rewrite <- fold_left_app, <- lines_of_app, <- tail_of_app.
    rewrite IH. now rewrite append_assoc.
Qed.

(** Whatever the chunk boundaries, the run is the fold of the loop body
    over the terminated lines of the whole text. *)
Lemma processStream_text (chunks : list string) (s : State) :
  run chunks "" s
  = (tail_of (joined chunks), fold_left handle (lines_of (joined chunks)) s).
Proof. exact (processStream_invariant chunks "" s). Qed.

(** On the decoded texts of the reads the loop reassembles the lines: let
    the texts of the reads, put end to end, be the lines [ls], each
    terminated by LF, followed by an unterminated remainder. Then, wherever
    the texts were cut, the loop runs its body (blank test, one
    [JSON.parse], dispatch) on each line of [ls] exactly once, in order, and
    ends with the remainder in its buffer. *)
Lemma decoded_lines_reassembled_across_chunks
  (chunks ls : list string) (remainder : string) (s : State) :
  forallb no_LF ls = true ->
  no_LF remainder = true ->
  joined chunks = text_of ls remainder ->
  run chunks "" s = (remainder, fold_left handle ls s).
Proof.
  intros Hls Hr Htext. rewrite processStream_text, Htext.
  now rewrite lines_of_text_of, tail_of_text_of.
Qed.

End ProcessStreamFacts.

(** The example of the specification: the metadata line cut in the middle
    of the word metadata is parsed once, as the record with [fps] 30. *)
Lemma split_metadata_example :
  Streaming.processStream Json.parse (fun _ => PrimFloat.nan) Js.JNull
    [Json.dq "{'type':'meta"; (Json.dq "data','fps':30}" ++ Json.nl)%string]
    "" Streaming.initial
  = ("", Streaming.setMetadata
           (Js.JObj [("type", Js.JStr "metadata"); ("fps", Js.JNum 30%float)])
           Streaming.initial).
Proof.
  rewrite (decoded_lines_reassembled_across_chunks Json.parse (fun _ => PrimFloat.nan)
             Js.JNull _ [Json.dq "{'type':'metadata','fps':30}"] ""
             Streaming.initial);
    reflexivity.
Defined.

(* ================================================================== *)
(** ** The record dispatch *)

Section DispatchFacts.
Import Js Text Streaming Records.

Variable JSON_parse : string -> option JsValue.
Variable ToNumber_other : JsValue -> float.
Variable md : JsValue.

Local Notation "'handle'" :=
  (fun st line => handle_line JSON_parse ToNumber_other md line st).
Local Notation "'on_record'" := (handle_record ToNumber_other md).

Lemma handle_line_record (line : string) (s : State) :
  handle_line JSON_parse ToNumber_other md line s
  = match line_record JSON_parse line with
    | Some data => on_record data s
    | None => s
    end.
Proof.
  unfold handle_line, line_record.
  destruct (String.eqb (trim line) ""); reflexivity.
Qed.

Lemma get_opt_of_get (data : JsValue) (k : string) (v : JsValue) :
  get data k = Some v -> get_opt data k = v.
Proof. unfold get_opt. now intros ->. Qed.

(** The frames cell: only the [frame_result] arm writes it, by appending. *)
Lemma allFrames_handle_record (data : JsValue) (s : State) :
  allFrames (on_record data s)
  = allFrames s ++ (if is_frame_result data then [data] else []).
Proof.
  unfold handle_record, is_frame_result.
  destruct (dispatch data) as [[]|]; cbn; try (now rewrite app_nil_r).
  destruct (truthy md); reflexivity.
Qed.

Lemma currentFrame_handle_record (data : JsValue) (s : State) :
  currentFrame (on_record data s)
  = if is_frame_result data then data else currentFrame s.
Proof.
  unfold handle_record, is_frame_result.
  destruct (dispatch data) as [[]|]; cbn; try reflexivity.
  destruct (truthy md); reflexivity.
Qed.

(** The error cell: only the error arm writes it. *)
Lemma error_handle_record (data : JsValue) (s : State) :
  error (on_record data s)
  = match dispatch data with
    | Some OnError => get_opt data "error"
    | _ => error s
    end.
Proof.
  unfold handle_record.
  destruct (dispatch data) as [[]|]; cbn; try reflexivity.
  destruct (truthy md); reflexivity.
Qed.

(** The flag: no arm sets it; the complete and error arms clear it. *)
Lemma isProcessing_handle_record (data : JsValue) (s : State) :
  isProcessing (on_record data s)
  = match dispatch data with
    | Some OnComplete | Some OnError => false
    | _ => isProcessing s
    end.
Proof.
  unfold handle_record.
  destruct (dispatch data) as [[]|]; cbn; try reflexivity.
  destruct (truthy md); reflexivity.
Qed.

(** The progress cell: the complete arm writes 100; the [frame_result] arm
    writes a value computed from the [metadata] of the closure, and nothing
    when that is falsy. The metadata cell of the state plays no part. *)
Lemma progress_handle_record (data : JsValue) (s : State) :
  progress (on_record data s)
  = match dispatch data with
    | Some OnComplete => 100%float
    | Some OnFrameResult =>
        if truthy md then progress_of ToNumber_other data md else progress s
    | _ => progress s
    end.
Proof.
  unfold handle_record.
  destruct (dispatch data) as [[]|]; cbn; try reflexivity.
  destruct (truthy md); reflexivity.
Qed.

Lemma frames_fold (ls : list string) :
  forall s : State,
    allFrames (fold_left handle ls s) = allFrames s ++ frames_of JSON_parse ls
    /\ currentFrame (fold_left handle ls s)
       = last (frames_of JSON_parse ls) (currentFrame s).
Proof.
  induction ls as [|l ls IH]; intros s; cbn [fold_left frames_of].
  - now rewrite app_nil_r.
  - destruct (IH (handle_line JSON_parse ToNumber_other md l s)) as [IHa IHc].
    rewrite IHa, IHc, handle_line_record.
    destruct (line_record JSON_parse l) as [data|]; [|now split].
    rewrite allFrames_handle_record, currentFrame_handle_record.
    destruct (is_frame_result data); [|now rewrite app_nil_r].
    split; [now rewrite <- app_assoc|].
    now rewrite last_cons_default.
Qed.

(** Lines that do not end in the error arm leave the error cell alone, and
    no line raises the flag again. *)
Lemma error_fold_no_error_line (ls : list string) :
  forallb (fun l => negb (is_error_line JSON_parse l)) ls = true ->
  forall s : State,
    error (fold_left handle ls s) = error s
    /\ (isProcessing s = false -> isProcessing (fold_left handle ls s) = false).
Proof.
  induction ls as [|l ls IH]; intros Hls s; cbn [fold_left]; [now split|].
  cbn [forallb] in Hls. apply andb_true_iff in Hls as [Hl Hls].
  destruct (IH Hls (handle_line JSON_parse ToNumber_other md l s)) as [IHe IHp].
  rewrite IHe. clear IHe. revert IHp. rewrite handle_line_record.
  unfold is_error_line, line_branch in Hl.
  destruct (line_record JSON_parse l) as [data|]; [|now split].
  rewrite error_handle_record, isProcessing_handle_record. intros IHp. split.
  - destruct (dispatch data) as [[]|]; try reflexivity. discriminate.
  - intros Hp. apply IHp. destruct (dispatch data) as [[]|]; auto.
Qed.

End DispatchFacts.

(* ================================================================== *)
(** ** Runs of [startStreamingDetection] *)

Section RunFacts.
Import Js Text Streaming Records.

Variable JSON_parse : string -> option JsValue.
Variable ToNumber_other : JsValue -> float.
Variable md : JsValue.

Local Notation "'handle'" :=
  (fun st line => handle_line JSON_parse ToNumber_other md line st).
Local Notation "'start'" := (startStreamingDetection JSON_parse ToNumber_other md).

(** What a streamed response leaves, before the end of the reads is
    looked at. *)
Lemma start_streamed (status : nat) (chunks : list string) (s : State) :
  start (Responded true status (Some (chunks, Done))) s
  = fold_left handle (lines_of (joined chunks)) (reset s).
Proof.
  cbn [startStreamingDetection]. now rewrite processStream_text.
Qed.

Lemma start_rejected (status : nat) (chunks : list string) (message : string)
  (s : State) :
  start (Responded true status (Some (chunks, ReadRejected message))) s
  = setIsProcessing false
      (setError (JStr ("Stream processing error: " ++ message)%string)
         (fold_left handle (lines_of (joined chunks)) (reset s))).
Proof.
  cbn [startStreamingDetection]. now rewrite processStream_text.
Qed.

Lemma forallb_remove_middle {A} (f : A -> bool) (l1 l2 : list A) (a : A) :
  forallb f (l1 ++ a :: l2) = true -> forallb f (l1 ++ l2) = true.
Proof.
  rewrite !forallb_app. cbn [forallb]. intros H.
  apply andb_true_iff in H as [H1 H2]. apply andb_true_iff in H2 as [_ H2].
  now rewrite H1, H2.
Qed.

(** C4. A line on which [JSON.parse] throws changes no state cell, and
    the run goes on: whatever the chunking, the state a response leaves is
    the state the same response without that line leaves. *)
Theorem C4_malformed_line_skipped
  (status : nat) (ending : StreamEnd) (chunks chunks' ls1 ls2 : list string)
  (bad remainder : string) (s : State) :
  forallb no_LF (ls1 ++ bad :: ls2) = true ->
  no_LF remainder = true ->
  JSON_parse bad = None ->
  joined chunks = text_of (ls1 ++ bad :: ls2) remainder ->
  joined chunks' = text_of (ls1 ++ ls2) remainder ->
  (forall st : State, handle_line JSON_parse ToNumber_other md bad st = st)
  /\ start (Responded true status (Some (chunks, ending))) s
     = start (Responded true status (Some (chunks', ending))) s.
Proof.
  intros Hls Hr Hbad Ht Ht'.
  assert (Hskip : forall st, handle_line JSON_parse ToNumber_other md bad st = st).
  { intros st. unfold handle_line. rewrite Hbad.
    destruct (String.eqb (trim bad) ""); reflexivity. }
  split; [exact Hskip|].
  assert (Hfold : fold_left handle (lines_of (joined chunks)) (reset s)
                  = fold_left handle (lines_of (joined chunks')) (reset s)).
  { rewrite Ht, Ht', !lines_of_text_of; try assumption.
    - rewrite !fold_left_app. cbn [fold_left]. now rewrite Hskip.
    - exact (forallb_remove_middle _ _ _ _ Hls). }
  destruct ending as [|message].
  - now rewrite !start_streamed.
  - now rewrite !start_rejected, Hfold.
Qed.

(** A run on its own opens by emptying [allFrames], clearing
    [currentFrame] and the error and zeroing the progress; from then on
    [allFrames] is the list of the [frame_result] records of the lines
    received, in the order of arrival, and [currentFrame] the last of
    them. *)
Lemma run_frames_in_arrival_order
  (status : nat) (ending : StreamEnd) (chunks ls : list string)
  (remainder : string) (s : State) :
  forallb no_LF ls = true ->
  no_LF remainder = true ->
  joined chunks = text_of ls remainder ->
  (allFrames (reset s) = [] /\ currentFrame (reset s) = JNull
   /\ progress (reset s) = 0%float /\ error (reset s) = JNull)
  /\ allFrames (start (Responded true status (Some (chunks, ending))) s)
     = frames_of JSON_parse ls
  /\ currentFrame (start (Responded true status (Some (chunks, ending))) s)
     = last (frames_of JSON_parse ls) JNull.
Proof.
  intros Hls Hr Ht. split; [now repeat split|].
  destruct (frames_fold JSON_parse ToNumber_other md ls (reset s)) as [Ha Hc].
  destruct ending as [|message].
  - rewrite start_streamed, Ht, lines_of_text_of by assumption.
    now rewrite Ha, Hc.
  - rewrite start_rejected, Ht, lines_of_text_of by assumption.
    cbn [allFrames currentFrame setIsProcessing setError].
    now rewrite Ha, Hc.
Qed.

End RunFacts.

(* ================================================================== *)
(** ** Overlapping runs *)

Section OverlapFacts.
Import Js Text Streaming Records Overlap.

Variable JSON_parse : string -> option JsValue.
Variable ToNumber_other : JsValue -> float.

Local Notation "'run_events'" := (exec JSON_parse ToNumber_other).

Lemma nth_error_set_nth {A : Type} (l : list A) :
  forall (i : nat) (x y : A),
    nth_error l i = Some y -> nth_error (set_nth i x l) i = Some x.
Proof.
  induction l as [|h l IH]; intros [|i] x y H; cbn in *; try discriminate.
  - reflexivity.
  - now apply (IH i x y).
Qed.

(** Reads of one loop, with no other event in between, are the [while]
    loop of [processStream] on the shared cells. *)
Lemma exec_reads_of_one_loop (n : nat) (md : JsValue) (chunks : list string) :
  forall (c : Component) (b : string),
    nth_error (loops c) n = Some (mkLoop md b) ->
    cells (run_events (map (Read n) chunks) c)
    = snd (processStream JSON_parse ToNumber_other md chunks b (cells c)).
Proof.
  induction chunks as [|chunk rest IH]; intros c b Hn; [reflexivity|].
  cbn [map exec fold_left step processStream]. rewrite Hn.
  cbn [closure_metadata buffer]. unfold read_chunk at 1 2.
  match goal with
  | |- cells (fold_left _ _ ?c1) = snd (processStream _ _ _ _ ?b1 _) =>
      change (cells (run_events (map (Read n) rest) c1)
              = snd (processStream JSON_parse ToNumber_other md rest b1 (cells c1)))
  end.
  apply IH. cbn [loops]. exact (nth_error_set_nth _ _ _ _ Hn).
Qed.

Lemma exec_own_run (md : JsValue) (chunks : list string) (c : Component) :
  cells (run_events (own_run md chunks c) c)
  = snd (processStream JSON_parse ToNumber_other md chunks "" (reset (cells c))).
Proof.
  unfold own_run. cbn [exec fold_left step].
  apply (exec_reads_of_one_loop _ md chunks
           {| cells := reset (cells c); loops := loops c ++ [mkLoop md ""] |} "").
  cbn [loops]. rewrite nth_error_app2 by apply Nat.le_refl.
  now rewrite Nat.sub_diag.
Qed.

(** C5, as the code has it. Every invocation opens by emptying
    [allFrames], clearing [currentFrame] and the error and zeroing the
    progress, whatever the component held and whatever loops are still
    pending. If from then on only the reads of the new run are served,
    then, however the lines [ls] received so far were cut into chunks,
    [allFrames] is the list of the [frame_result] records of [ls] in the
    order of arrival, and [currentFrame] is the last of them. *)
Theorem C5_frames_of_an_undisturbed_run
  (md : JsValue) (chunks ls : list string) (remainder : string) (c : Component) :
  forallb no_LF ls = true ->
  no_LF remainder = true ->
  joined chunks = text_of ls remainder ->
  let opened := step JSON_parse ToNumber_other c (Invoke md) in
  let c' := run_events (own_run md chunks c) c in
  (allFrames (cells opened) = [] /\ currentFrame (cells opened) = JNull
   /\ progress (cells opened) = 0%float /\ error (cells opened) = JNull)
  /\ allFrames (cells c') = frames_of JSON_parse ls
  /\ currentFrame (cells c') = last (frames_of JSON_parse ls) JNull.
Proof.
  intros Hls Hr Ht. cbv zeta. split; [now repeat split|].
  rewrite exec_own_run, processStream_text, Ht.
  cbn [snd]. rewrite lines_of_text_of by assumption.
  destruct (frames_fold JSON_parse ToNumber_other md ls (reset (cells c)))
    as [Ha Hc].
  now rewrite Ha, Hc.
Qed.

End OverlapFacts.

Section RecordFacts.
Import Js Text Streaming Records.

Variable ToNumber_other : JsValue -> float.

Local Notation "'on_record'" := (handle_record ToNumber_other).

Lemma is_str_eq (v : JsValue) (lit : string) :
  is_str v lit = true -> v = JStr lit.
Proof.
  destruct v; cbn; try discriminate. intros H.
  now apply String.eqb_eq in H as ->.
Qed.

Lemma dispatch_complete (data : JsValue) :
  is_str (get_opt data "type") "complete" = true ->
  dispatch data = Some OnComplete.
Proof.
  unfold dispatch, get_opt.
  destruct (get data "type") as [ty|]; [|discriminate].
  intros H. apply is_str_eq in H as ->. reflexivity.
Qed.

(** C6. A record whose [type] is the string complete sets the progress to
    100 and the processing flag to false; the other four cells keep their
    values. *)
Theorem C6_complete_sets_progress_100
  (md data : JsValue) (s : State) :
  is_str (get_opt data "type") "complete" = true ->
  progress (on_record md data s) = 100%float
  /\ isProcessing (on_record md data s) = false
  /\ metadata (on_record md data s) = metadata s
  /\ currentFrame (on_record md data s) = currentFrame s
  /\ allFrames (on_record md data s) = allFrames s
  /\ error (on_record md data s) = error s.
Proof.
  intros H. unfold handle_record. rewrite (dispatch_complete data H).
  now repeat split.
Qed.

Lemma dispatch_recognized (data : JsValue) :
  recognized data = true -> dispatch data = Some (type_branch data).
Proof.
  unfold recognized, type_branch, dispatch, get_opt.
  destruct (get data "type") as [ty|]; [|discriminate].
  intros H.
  destruct (is_str ty "metadata"); [reflexivity|].
  destruct (is_str ty "frame_result"); [reflexivity|].
  destruct (is_str ty "complete"); [reflexivity|discriminate].
Qed.

Lemma dispatch_error_iff (data : JsValue) :
  dispatch data = Some OnError
  <-> recognized data = false /\ truthy (get_opt data "error") = true.
Proof.
  unfold recognized, dispatch.
  destruct (get data "type") as [ty|] eqn:Ety.
  - rewrite (get_opt_of_get _ _ _ Ety).
    destruct (is_str ty "metadata"), (is_str ty "frame_result"),
      (is_str ty "complete"), (truthy (get_opt data "error"));
      cbn; split; try discriminate; try (intros [? ?]; discriminate);
      now intros.
  - destruct data; try discriminate; cbn; split; try discriminate;
      intros [_ ?]; discriminate.
Qed.

(** C9. A record of a recognized type (metadata, [frame_result], complete)
    is handled by the arm of its type and by nothing else, whatever its
    [error] field holds: the state after it is the state the setters of that
    arm give, the displayed error is as it was, and the processing flag is
    as it was unless the type is complete. The error arm, which sets the
    error and clears the flag, is taken exactly by the records whose [type]
    is none of the three and whose [error] is truthy; a record with neither
    changes nothing. *)
Theorem C9_error_branch_only_without_recognized_type (data : JsValue) :
  (dispatch data = Some OnError
   <-> recognized data = false /\ truthy (get_opt data "error") = true)
  /\ (recognized data = true ->
      dispatch data = Some (type_branch data)
      /\ forall (md : JsValue) (s : State),
           on_record md data s
           = (if is_str (get_opt data "type") "metadata" then setMetadata data s
              else if is_str (get_opt data "type") "frame_result" then
                if truthy md
                then setProgress (progress_of ToNumber_other data md)
                       (setAllFrames (fun prev => prev ++ [data])
                          (setCurrentFrame data s))
                else setAllFrames (fun prev => prev ++ [data])
                       (setCurrentFrame data s)
              else setProgress 100%float (setIsProcessing false s))
           /\ error (on_record md data s) = error s
           /\ (is_str (get_opt data "type") "complete" = false ->
               isProcessing (on_record md data s) = isProcessing s))
  /\ (recognized data = false ->
      forall (md : JsValue) (s : State),
        on_record md data s
        = if truthy (get_opt data "error")
          then setIsProcessing false (setError (get_opt data "error") s)
          else s).
Proof.
  split; [apply dispatch_error_iff|]. split.
  - intros H. pose proof (dispatch_recognized data H) as Hd.
    split; [exact Hd|]. intros md s.
    unfold handle_record. rewrite Hd. unfold type_branch.
    unfold recognized in H.
    destruct (is_str (get_opt data "type") "metadata") eqn:E1.
    + apply is_str_eq in E1. rewrite E1. now repeat split.
    + destruct (is_str (get_opt data "type") "frame_result") eqn:E2.
      * apply is_str_eq in E2. rewrite E2.
        destruct (truthy md); now repeat split.
      * cbn [orb] in H. rewrite H. repeat split. discriminate.
  - intros H md s. unfold handle_record, dispatch.
    destruct (get data "type") as [ty|] eqn:Ety.
    + unfold recognized in H. rewrite (get_opt_of_get _ _ _ Ety) in H.
      apply orb_false_iff in H as [H H3]. apply orb_false_iff in H as [H1 H2].
      rewrite H1, H2, H3.
      destruct (truthy (get_opt data "error")); reflexivity.
    + destruct data; cbn in Ety; try discriminate; reflexivity.
Qed.

End RecordFacts.

Section ErrorRecordFacts.
Import Js Text Streaming Records.

Variable JSON_parse : string -> option JsValue.
Variable ToNumber_other : JsValue -> float.
Variable md : JsValue.

Local Notation "'handle'" :=
  (fun st line => handle_line JSON_parse ToNumber_other md line st).
Local Notation "'start'" := (startStreamingDetection JSON_parse ToNumber_other md).

(** C3, as the code has it. An error record (no recognized [type], truthy
    [error]) sets the displayed error to its [error] value and clears the
    processing flag. The loop reads on. If the reads end normally and no
    later line is itself an error record, the displayed error at the end is
    that value and the flag is still cleared. *)
Theorem C3_last_error_record_is_displayed
  (status : nat) (chunks ls1 ls2 : list string) (l remainder : string)
  (data : JsValue) (s : State) :
  forallb no_LF (ls1 ++ l :: ls2) = true ->
  no_LF remainder = true ->
  joined chunks = text_of (ls1 ++ l :: ls2) remainder ->
  line_record JSON_parse l = Some data ->
  recognized data = false ->
  truthy (get_opt data "error") = true ->
  forallb (fun l' => negb (is_error_line JSON_parse l')) ls2 = true ->
  error (start (Responded true status (Some (chunks, Done))) s)
  = get_opt data "error"
  /\ isProcessing (start (Responded true status (Some (chunks, Done))) s) = false.
Proof.
  intros Hls Hr Ht Hl Hrec Herr Hlater.
  assert (Hd : dispatch data = Some OnError) by (apply dispatch_error_iff; now split).
  rewrite start_streamed, Ht, lines_of_text_of by assumption.
  rewrite fold_left_app. cbn [fold_left].
  destruct (error_fold_no_error_line JSON_parse ToNumber_other md ls2 Hlater
              (handle_line JSON_parse ToNumber_other md l
                 (fold_left handle ls1 (reset s)))) as [He Hp].
  rewrite He, Hp.
  - rewrite handle_line_record, Hl, error_handle_record, Hd. now split.
  - now rewrite handle_line_record, Hl, isProcessing_handle_record, Hd.
Qed.

End ErrorRecordFacts.

(* ================================================================== *)
(** ** The consumer on concrete streams *)

Section ConcreteRuns.
Import Js Text Streaming Records Samples.

(** The arithmetic of the specification's example: frame 10 of 100 is 10
    percent. *)
Lemma progress_of_10_of_100 :
  progress_of to_number_other frame_10_record metadata_100_record = 10%float.
Proof. reflexivity. Qed.

(** A [frame_result] handled by a closure whose [metadata] is [null] leaves
    the progress cell alone, whatever the metadata cell of the state holds. *)
Lemma frame_result_null_closure_keeps_progress
  (ToNumber_other : JsValue -> float) (data : JsValue) (s : State) :
  dispatch data = Some OnFrameResult ->
  progress (handle_record ToNumber_other JNull data s) = progress s.
Proof. intros Hd. now rewrite progress_handle_record, Hd. Qed.

(** C2, on the code. In the first run after the component mounted, the
    metadata record with [frame_count] 100 is received and stored, the
    [frame_result] record with [frame_number] 10 is received after it and
    stored, and the progress is still 0, not 10: the loop reads the
    [metadata] constant of the render that started the run, which is
    [null]. *)
Theorem C2_first_run_progress_stays_zero :
  let final := first_run [line metadata_100; line frame_10] in
  metadata final = metadata_100_record
  /\ allFrames final = [frame_10_record]
  /\ progress final = 0%float
  /\ progress final <> 10%float.
Proof.
  cbv zeta. repeat split; try reflexivity.
  intros E. apply (f_equal (fun p => PrimFloat.eqb p 10%float)) in E.
  vm_compute in E. discriminate.
Qed.

(** A run restarted from the button reads the metadata stored by the run
    before it, and only then computes the 10 percent. *)
Lemma restart_progress_uses_stored_metadata :
  progress
    (on_restart_click Json.parse to_number_other
       (ok_stream [line frame_10])
       (first_run [line metadata_100; line complete]))
  = 10%float.
Proof. reflexivity. Qed.

(** C3 does not hold as stated: a [frame_result] that follows the error
    record is still stored, and a second error record replaces the message
    of the first. *)
Lemma C3_counterexample_records_after_error :
  first_run [line error_boom; line frame_10] <> first_run [line error_boom]
  /\ error (first_run [line error_boom; line error_late]) <> JStr "boom".
Proof.
  split.
  - intros E. apply (f_equal allFrames) in E. vm_compute in E. discriminate.
  - vm_compute. intros E. discriminate.
Qed.

(** An error record between a metadata record and a [frame_result]: the
    message shown at the end is the one of the error record. *)
Lemma C3_witness_error_between_records :
  error (first_run [line metadata_100; line error_boom; line frame_10])
  = JStr "boom"
  /\ isProcessing (first_run [line metadata_100; line error_boom; line frame_10])
     = false.
Proof.
  exact (C3_last_error_record_is_displayed Json.parse to_number_other JNull 200
           [line metadata_100; line error_boom; line frame_10]
           [Json.dq metadata_100] [Json.dq frame_10] (Json.dq error_boom) ""
           (JObj [("error", JStr "boom")]) initial
           eq_refl eq_refl eq_refl eq_refl eq_refl eq_refl eq_refl).
Defined.

(** A truncated record between two good lines, the stream cut into four
    chunks, against the two good lines in one chunk. *)
Lemma C4_witness_malformed_between_records :
  first_run [line metadata_100; Json.dq malformed; Json.nl; line frame_10]
  = first_run [(line metadata_100 ++ line frame_10)%string].
Proof.
  exact (proj2 (C4_malformed_line_skipped Json.parse to_number_other JNull 200 Done
           [line metadata_100; Json.dq malformed; Json.nl; line frame_10]
           [(line metadata_100 ++ line frame_10)%string]
           [Json.dq metadata_100] [Json.dq frame_10] (Json.dq malformed) ""
           initial eq_refl eq_refl eq_refl eq_refl eq_refl)).
Defined.

(** C5 does not hold as stated: the first run receives frames 10 and 20,
    the handler is called again while its loop still reads, the second run
    receives frame 10 and the first run then receives frame 30. [allFrames]
    then holds frame 10 and frame 30: neither what the second run received
    nor what the first did. *)
Lemma C5_counterexample_overlapping_runs :
  let c := Overlap.exec Json.parse to_number_other
             [Overlap.Invoke JNull;
              Overlap.Read 0 (line frame_10); Overlap.Read 0 (line frame_20);
              Overlap.Invoke JNull;
              Overlap.Read 1 (line frame_10); Overlap.Read 0 (line frame_30)]
             Overlap.mounted in
  allFrames (Overlap.cells c) = [frame_10_record; frame_30_record]
  /\ allFrames (Overlap.cells c) <> frames_of Json.parse [Json.dq frame_10]
  /\ allFrames (Overlap.cells c)
     <> frames_of Json.parse [Json.dq frame_10; Json.dq frame_20; Json.dq frame_30]
  /\ currentFrame (Overlap.cells c) = frame_30_record.
Proof.
  cbv zeta. split; [reflexivity|]. repeat split.
  - intros E. apply (f_equal (@List.length JsValue)) in E.
    vm_compute in E. discriminate.
  - intros E. apply (f_equal (@List.length JsValue)) in E.
    vm_compute in E. discriminate.
Qed.

(** A second run, started after the loop of a first run fell silent: two
    frames cut across three chunks, the last line not yet terminated. *)
Lemma C5_witness_frames_cut_across_chunks :
  let c := Overlap.exec Json.parse to_number_other
             [Overlap.Invoke JNull; Overlap.Read 0 (line frame_10)]
             Overlap.mounted in
  let chunks := [Json.dq "{'type':'frame_result','frame_";
                 (Json.dq "number':10}" ++ Json.nl ++ Json.dq frame_20)%string;
                 (Json.nl ++ Json.dq complete)%string] in
  let c' := Overlap.exec Json.parse to_number_other
              (Overlap.own_run JNull chunks c) c in
  allFrames (Overlap.cells c') = [frame_10_record; frame_20_record]
  /\ currentFrame (Overlap.cells c') = frame_20_record.
Proof.
  exact (proj2 (C5_frames_of_an_undisturbed_run Json.parse to_number_other JNull
           [Json.dq "{'type':'frame_result','frame_";
            (Json.dq "number':10}" ++ Json.nl ++ Json.dq frame_20)%string;
            (Json.nl ++ Json.dq complete)%string]
           [Json.dq frame_10; Json.dq frame_20] (Json.dq complete)
           (Overlap.exec Json.parse to_number_other
              [Overlap.Invoke JNull; Overlap.Read 0 (line frame_10)]
              Overlap.mounted)
           eq_refl eq_refl eq_refl)).
Defined.

(** The complete record on a run that has just been reset. *)
Lemma C6_witness_complete_record :
  progress (handle_record to_number_other JNull
              (JObj [("type", JStr "complete")]) (reset initial)) = 100%float
  /\ isProcessing (handle_record to_number_other JNull
                     (JObj [("type", JStr "complete")]) (reset initial)) = false.
Proof.
  pose proof (C6_complete_sets_progress_100 to_number_other JNull
                (JObj [("type", JStr "complete")]) (reset initial) eq_refl)
    as [Hp [Hf _]].
  exact (conj Hp Hf).
Defined.

(** A [frame_result] that also carries an error string: it is stored as
    a frame, the progress is computed, and neither the error nor the flag
    moves. *)
Lemma C9_witness_frame_result_with_error :
  dispatch (JObj [("type", JStr "frame_result"); ("frame_number", JNum 10%float);
                  ("error", JStr "ignored")])
  = Some OnFrameResult
  /\ handle_record to_number_other metadata_100_record
       (JObj [("type", JStr "frame_result"); ("frame_number", JNum 10%float);
              ("error", JStr "ignored")])
       (reset initial)
     = {| isProcessing := true; metadata := JNull;
          currentFrame :=
            JObj [("type", JStr "frame_result");
                  ("frame_number", JNum 10%float); ("error", JStr "ignored")];
          allFrames :=
            [JObj [("type", JStr "frame_result");
                   ("frame_number", JNum 10%float); ("error", JStr "ignored")]];
          error := JNull; progress := 10%float |}.
Proof.
  pose proof (proj1 (proj2 (C9_error_branch_only_without_recognized_type
                              to_number_other
                              (JObj [("type", JStr "frame_result");
                                     ("frame_number", JNum 10%float);
                                     ("error", JStr "ignored")])))
                eq_refl) as [Hd Hrec].
  destruct (Hrec metadata_100_record (reset initial)) as [Heq _].
  exact (conj Hd Heq).
Defined.

End ConcreteRuns.

(* ================================================================== *)
(** ** The detection normaliser *)

Section NormaliseFacts.
Import Js BatchDetection Defaults.

Lemma or_else_defaulted (raw dflt : JsValue) :
  defaulted raw dflt (or_else raw dflt).
Proof.
  unfold defaulted, or_else. repeat split.
  - now intros ->.
  - now intros ->.
  - now intros ->.
Qed.

Lemma formatDetection_normalized (rnd now : string) (d : JsValue) :
  is_nullish d = false ->
  exists r, formatDetection rnd now d = Some r /\ normalized_from d r.
Proof.
  intros Hd. unfold formatDetection.
  destruct (get d "id") as [id_|] eqn:E.
  - eexists. split; [reflexivity|].
    unfold normalized_from. cbn.
    repeat split; apply or_else_defaulted.
  - destruct d; cbn in *; discriminate.
Qed.

Lemma map_format_normalized (rnd now : nat -> string) (items : list JsValue) :
  forallb (fun d => negb (is_nullish d)) items = true ->
  forall i : nat,
  exists fs,
    map_format rnd now i items = Some fs
    /\ List.length fs = List.length items
    /\ forall (k : nat) (d : JsValue),
         nth_error items k = Some d ->
         exists r, nth_error fs k = Some r /\ normalized_from d r.
Proof.
  induction items as [|d items IH]; intros Hall i.
  - exists []. repeat split. intros [|k] d; discriminate.
  - cbn [forallb] in Hall. apply andb_true_iff in Hall as [Hd Hrest].
    apply negb_true_iff in Hd.
    destruct (formatDetection_normalized (rnd i) (now i) d Hd) as [r [Hr Hn]].
    destruct (IH Hrest (S i)) as [fs [Hfs [Hlen Hnth]]].
    exists (r :: fs). cbn [map_format]. rewrite Hr, Hfs.
    split; [reflexivity|]. split; [cbn; now rewrite Hlen|].
    intros [|k] d' Hk; cbn in Hk |- *.
    + injection Hk as <-. now exists r.
    + now apply Hnth.
Qed.

(** C7, as the code has it. On a successful response whose [detections] is
    an array none of whose elements is [null] or [undefined],
    [processUploadedVideo] stores one record per raw detection, in order. In
    each record every box field is 0 when the corresponding [bounding_box]
    field is absent, the severity is medium and the label Unknown when
    absent, and a field that is present and truthy is copied unchanged; a
    field that is present but falsy (empty string, [null], [false], zero)
    gets the default as well. *)
Theorem C7_defaults_unless_truthy
  (rnd now : nat -> string) (result : JsValue) (items : list JsValue) (p : Panel) :
  get_opt result "detections" = JArr items ->
  forallb (fun d => negb (is_nullish d)) items = true ->
  let p' := processUploadedVideo rnd now (OkJson (Some result)) p in
  hasProcessedVideo p' = true
  /\ List.length (detections p') = List.length items
  /\ forall (k : nat) (d : JsValue),
       nth_error items k = Some d ->
       exists r, nth_error (detections p') k = Some r /\ normalized_from d r.
Proof.
  intros Hdets Hall p'. subst p'. unfold processUploadedVideo.
  assert (Ht : truthy result = true).
  { destruct result; cbn in Hdets; try discriminate. reflexivity. }
  unfold and_then. rewrite Ht, Hdets. cbn [truthy].
  destruct (map_format_normalized rnd now items Hall 0) as [fs [Hfs [Hlen Hnth]]].
  rewrite Hfs. cbn [hasProcessedVideo detections]. now repeat split.
Qed.

(** C7 does not hold as stated: a label that is present but empty is not
    copied, it becomes Unknown; a box field that is present as [null]
    becomes 0; and a detection object that shares its array with a [null]
    gets no record at all, since the map throws and nothing is stored. *)
Lemma C7_counterexample_empty_label_replaced :
  (let d := JObj [("label", JStr ""); ("bounding_box", JObj [("x", JNull)])] in
   exists r,
     formatDetection "0.5" "2024-01-01T00:00:00.000Z" d = Some r
     /\ get_opt d "label" = JStr "" /\ label r = JStr "Unknown"
     /\ label r <> get_opt d "label"
     /\ get_opt (get_opt d "bounding_box") "x" = JNull
     /\ x (boundingBox r) <> JNull)
  /\ processUploadedVideo (fun _ => "0.5") (fun _ => "2024-01-01T00:00:00.000Z")
       (OkJson (Some (JObj [("detections",
                             JArr [JObj [("id", JStr "d1"); ("label", JStr "car")];
                                   JNull])])))
       (mkPanel [] false [])
     = mkPanel [] false [msg_exception].
Proof.
  split; [|reflexivity].
  cbv zeta. eexists. split; [reflexivity|]. cbn.
  repeat split; discriminate.
Qed.

(** A response with one detection that has neither [bounding_box] nor
    [severity]. *)
Lemma C7_witness_missing_bounding_box :
  let result :=
    JObj [("detections",
           JArr [JObj [("id", JStr "d1"); ("label", JStr "car");
                       ("confidence", JNum 1%float)]])] in
  let p' := processUploadedVideo (fun _ => "0.5")
              (fun _ => "2024-01-01T00:00:00.000Z") (OkJson (Some result))
              (mkPanel [] false []) in
  hasProcessedVideo p' = true
  /\ List.length (detections p') = 1
  /\ forall (k : nat) (d : JsValue),
       nth_error [JObj [("id", JStr "d1"); ("label", JStr "car");
                        ("confidence", JNum 1%float)]] k = Some d ->
       exists r, nth_error (detections p') k = Some r /\ normalized_from d r.
Proof.
  exact (C7_defaults_unless_truthy (fun _ => "0.5")
           (fun _ => "2024-01-01T00:00:00.000Z")
           (JObj [("detections",
                   JArr [JObj [("id", JStr "d1"); ("label", JStr "car");
                               ("confidence", JNum 1%float)]])])
           [JObj [("id", JStr "d1"); ("label", JStr "car");
                  ("confidence", JNum 1%float)]]
           (mkPanel [] false []) eq_refl eq_refl).
Defined.

(** The example of the specification: without [bounding_box] the four box
    fields are 0, and without [severity] the severity is medium. *)
Lemma missing_bounding_box_example :
  option_map (fun r => (boundingBox r, severity r, label r))
    (formatDetection "0.5" "2024-01-01T00:00:00.000Z"
       (JObj [("id", JStr "d1"); ("label", JStr "car")]))
  = Some (mkBox (JNum 0%float) (JNum 0%float) (JNum 0%float) (JNum 0%float),
          JStr "medium", JStr "car").
Proof. reflexivity. Qed.

End NormaliseFacts.

(* ================================================================== *)
(** ** The alert panel *)

Section AlertPanelFacts.
Import AlertPanel.

Lemma buttons_acknowledge (a : Alert) :
  status a = new -> buttons a = [Acknowledge; ViewDetails].
Proof. unfold buttons, is_new, is_acknowledged. now intros ->. Qed.

(** The Acknowledge button exists on the items with status new only. *)
Lemma click_acknowledge_not_new {World : Type} (parent : Parent World)
  (a : Alert) (w : World) :
  status a <> new -> click parent a Acknowledge w = None.
Proof.
  unfold click, buttons, is_new, is_acknowledged.
  destruct (status a); [congruence| |]; reflexivity.
Qed.

(** C8, as the code has it. On an alert with status new the Acknowledge
    button calls the [onAcknowledge] callback of the panel with the id of
    that alert, and the panel does nothing else. With the default
    callback, which is the one the dashboard page leaves in place, the
    parent state and the list of alerts are the same after the click:
    no alert changes, the acknowledged one included. *)
Theorem C8_acknowledge_only_calls_back {World : Type}
  (now : Z) (list_prop : option (list Alert)) (activeTab : string)
  (a : Alert) (w : World) :
  status a = new ->
  (forall parent : Parent World,
     click parent a Acknowledge w = Some (onAcknowledge (parent w) (id a) w))
  /\ (let panel : Parent World :=
        fun _ => with_defaults now list_prop None None None in
      click panel a Acknowledge w = Some w
      /\ forall w' : World,
           click panel a Acknowledge w = Some w' ->
           alerts (panel w') = alerts (panel w)
           /\ shown panel activeTab w' = shown panel activeTab w).
Proof.
  intros Hnew.
  assert (Hclick : forall parent : Parent World,
             click parent a Acknowledge w
             = Some (onAcknowledge (parent w) (id a) w)).
  { intros parent. unfold click. now rewrite (buttons_acknowledge a Hnew). }
  split; [exact Hclick|]. cbv zeta. split.
  - now rewrite Hclick.
  - intros w' _. now split.
Qed.

(** C8 does not hold as stated: on the dashboard page, after Acknowledge
    is clicked on alert 1, whose status is new, the panel still lists alert
    1 with status new. *)
Lemma C8_counterexample_status_stays_new :
  let a := hd (mkAlert "" "" "" 0 low 0 "" resolved "") (defaultAlerts 0) in
  id a = "1" /\ status a = new
  /\ exists w',
       click (home 0) a Acknowledge tt = Some w'
       /\ map (fun b => (id b, status b)) (shown (home 0) "all" w')
          = [("1", new); ("2", acknowledged); ("3", new); ("4", new);
             ("5", resolved); ("6", acknowledged)]
       /\ forall b, In b (shown (home 0) "all" w') -> id b = "1" ->
                    status b <> acknowledged.
Proof.
  cbv zeta. split; [reflexivity|]. split; [reflexivity|].
  exists tt. split; [reflexivity|]. split; [reflexivity|].
  intros b Hb Hid. cbn in Hb.
  destruct Hb as [<-|[<-|[<-|[<-|[<-|[<-|[]]]]]]]; cbn in Hid |- *; discriminate.
Qed.

(** Alert 1 of the mock data on the dashboard page. *)
Lemma C8_witness_default_alerts :
  (forall parent : Parent unit,
     click parent (hd (mkAlert "" "" "" 0 low 0 "" resolved "") (defaultAlerts 0))
       Acknowledge tt
     = Some (onAcknowledge (parent tt) "1" tt))
  /\ click (home 0) (hd (mkAlert "" "" "" 0 low 0 "" resolved "") (defaultAlerts 0))
       Acknowledge tt = Some tt.
Proof.
  pose proof (C8_acknowledge_only_calls_back (World := unit) 0 None "all"
                (hd (mkAlert "" "" "" 0 low 0 "" resolved "") (defaultAlerts 0))
                tt eq_refl) as [Hcall [Hsame _]].
  exact (conj Hcall Hsame).
Defined.

End AlertPanelFacts.

(* ================================================================== *)
(** ** The upload handler *)

Section UploadFacts.
Import Js VideoAnalysisPage.

Lemma and_then_undefined_falsy (data : JsValue) :
  truthy (and_then data JUndefined) = false.
Proof. unfold and_then. destruct (truthy data) eqn:E; [reflexivity|exact E]. Qed.

(** C10. When a file was chosen and the request is rejected, or resolves
    with a body that has no [video_id], the handler leaves [videoId] and
    [uploadedVideoId] as they were and sets [uploadError] to a message;
    whatever the outcome, [isUploading] is false when the handler is
    done. *)
Theorem C10_failed_upload_keeps_ids {File : Type}
  (file : File) (outcome : PostOutcome) (s : State) :
  let s' := handleFileUpload (Some file) outcome s in
  ((outcome = Rejected
    \/ exists data, outcome = Resolved data /\ get_opt data "video_id" = JUndefined) ->
   videoId s' = videoId s
   /\ uploadedVideoId s' = uploadedVideoId s
   /\ exists message, uploadError s' = Some message)
  /\ isUploading s' = false.
Proof.
  cbv zeta. split.
  - intros [-> | [data [-> Hlack]]]; cbn.
    + repeat split. now exists msg_failed.
    + rewrite Hlack, and_then_undefined_falsy. cbn.
      repeat split. now exists msg_no_id.
  - destruct outcome as [|data]; cbn; [reflexivity|].
    destruct (truthy (and_then data (get_opt data "video_id"))); reflexivity.
Qed.

(** A 2xx answer whose body has no [video_id], after an earlier upload
    stored an identifier. *)
Lemma C10_witness_body_without_video_id :
  let s := {| videoId := JStr "old"; uploadedVideoId := JStr "old";
              isUploading := false; uploadError := None |} in
  let s' := handleFileUpload (Some "clip.mp4")
              (Resolved (JObj [("status", JStr "stored")])) s in
  videoId s' = JStr "old" /\ uploadedVideoId s' = JStr "old"
  /\ exists message, uploadError s' = Some message.
Proof.
  exact (proj1 (C10_failed_upload_keeps_ids "clip.mp4"
                  (Resolved (JObj [("status", JStr "stored")]))
                  {| videoId := JStr "old"; uploadedVideoId := JStr "old";
                     isUploading := false; uploadError := None |})
           (or_intror (ex_intro _ (JObj [("status", JStr "stored")])
                         (conj eq_refl eq_refl)))).
Defined.

(** Without a file the handler returns at once and writes nothing. *)
Lemma handleFileUpload_no_file {File : Type} (outcome : PostOutcome) (s : State) :
  handleFileUpload (@None File) outcome s = s.
Proof. reflexivity. Qed.

(** X20. A successful upload, one whose body is truthy and carries a
    truthy [video_id], stores that identifier in both cells, clears the
    error of an earlier attempt and clears [isUploading]. *)
Lemma handleFileUpload_success {File : Type} (file : File) (data : JsValue) (s : State) :
  truthy data = true -> truthy (get_opt data "video_id") = true ->
  handleFileUpload (Some file) (Resolved data) s
  = {| videoId := get_opt data "video_id";
       uploadedVideoId := get_opt data "video_id";
       isUploading := false; uploadError := None |}.
Proof.
  intros Hd Hv. cbn. unfold and_then. now rewrite Hd, Hv.
Qed.

End UploadFacts.

(* ================================================================== *)
(** ** More on the stream consumer *)

Section TailFacts.
Import Js Text.

Lemma has_char_app (c : ascii) (a b : string) :
  has_char c (a ++ b)%string = has_char c a || has_char c b.
Proof.
  induction a as [|x a IH]; [reflexivity|].
  cbn [String.append has_char]. now rewrite IH, orb_assoc.
Qed.

(** What follows the last separator holds no separator. *)
Lemma last_piece_no_sep (sep : ascii) (s : string) :
  has_char sep (last (split sep s) EmptyString) = false.
Proof.
  induction s as [|c s IH]; [reflexivity|].
  cbn [split]. pose proof (split_not_nil sep s) as Hn.
  destruct (Ascii.eqb c sep) eqn:Hc.
  - destruct (split sep s) as [|h t]; [congruence|]. exact IH.
  - destruct (split sep s) as [|h [|h' t]]; [congruence| |].
    + cbn [last] in IH |- *. cbn [has_char]. now rewrite Hc, IH.
    + exact IH.
Qed.

Lemma joined_app (a b : list string) :
  joined (a ++ b) = (joined a ++ joined b)%string.
Proof.
  induction a as [|x a IH]; [reflexivity|].
  cbn [app joined]. now rewrite IH, append_assoc.
Qed.

(** Text without LF added at the end completes no line. *)
Lemma lines_of_unterminated (t rest : string) :
  no_LF rest = true -> lines_of (t ++ rest)%string = lines_of t.
Proof.
  unfold no_LF. intros Hr. apply negb_true_iff in Hr.
  rewrite lines_of_app. unfold lines_of at 2.
  rewrite split_no_sep.
  - cbn [removelast]. apply app_nil_r.
  - rewrite has_char_app, Hr. unfold tail_of.
    now rewrite last_piece_no_sep.
Qed.

End TailFacts.

Section RunSummaryFacts.
Import Js Text Streaming Records RunSummary.

Variable JSON_parse : string -> option JsValue.
Variable ToNumber_other : JsValue -> float.
Variable md : JsValue.

Local Notation "'handle'" :=
  (fun st line => handle_line JSON_parse ToNumber_other md line st).
Local Notation "'start'" := (startStreamingDetection JSON_parse ToNumber_other md).

(** X1. The buffer and the state the loop ends with depend on the
    concatenation of the chunks only, not on where the reads cut it. *)
Theorem processStream_ignores_chunk_boundaries
  (chunks chunks' : list string) (s : State) :
  joined chunks = joined chunks' ->
  processStream JSON_parse ToNumber_other md chunks "" s
  = processStream JSON_parse ToNumber_other md chunks' "" s.
Proof. intros H. now rewrite !processStream_text, H. Qed.

(** X2. What the stream carries after its last LF is never parsed, not even
    when the reads end: a run whose last chunk is followed by text without
    LF ends in the state of the run without that text. *)
Theorem unterminated_last_line_is_dropped
  (status : nat) (ending : StreamEnd) (chunks : list string) (rest : string)
  (s : State) :
  no_LF rest = true ->
  start (Responded true status (Some (chunks ++ [rest], ending))) s
  = start (Responded true status (Some (chunks, ending))) s.
Proof.
  intros Hr.
  assert (Hl : lines_of (joined (chunks ++ [rest])) = lines_of (joined chunks)).
  { rewrite joined_app. cbn [joined]. rewrite append_empty_r.
    now apply lines_of_unterminated. }
  destruct ending as [|message].
  - now rewrite !start_streamed, Hl.
  - now rewrite !start_rejected, Hl.
Qed.

Lemma takes_dispatch (b : Branch) (line : string) (data : JsValue) :
  line_record JSON_parse line = Some data ->
  takes JSON_parse b line
  = match dispatch data with Some b' => same_branch b b' | None => false end.
Proof. unfold takes, line_branch. now intros ->. Qed.

Lemma takes_no_record (b : Branch) (line : string) :
  line_record JSON_parse line = None -> takes JSON_parse b line = false.
Proof. unfold takes, line_branch. now intros ->. Qed.

Lemma isProcessing_fold (ls : list string) :
  forall s : State,
    isProcessing (fold_left handle ls s)
    = isProcessing s && negb (existsb (clears_flag JSON_parse) ls).
Proof.
  induction ls as [|l ls IH]; intros s; cbn [fold_left existsb].
  - now rewrite andb_true_r.
  - rewrite IH, handle_line_record. unfold clears_flag at 2.
    destruct (line_record JSON_parse l) as [data|] eqn:El.
    + rewrite isProcessing_handle_record, !(takes_dispatch _ _ _ El).
      destruct (dispatch data) as [[]|]; cbn;
        try reflexivity; now rewrite andb_false_r.
    + now rewrite !(takes_no_record _ _ El).
Qed.

(** X3. After a streamed response whose reads end normally, the processing
    flag is still set exactly when no complete record and no error record
    was among the lines received: a stream that just ends leaves the
    component processing. *)
Theorem flag_cleared_only_by_complete_or_error
  (status : nat) (chunks : list string) (s : State) :
  isProcessing (start (Responded true status (Some (chunks, Done))) s)
  = negb (existsb (clears_flag JSON_parse) (lines_of (joined chunks))).
Proof. rewrite start_streamed, isProcessing_fold. reflexivity. Qed.

Lemma metadata_fold (ls : list string) :
  forall s : State,
    metadata (fold_left handle ls s)
    = last (metadata_records JSON_parse ls) (metadata s).
Proof.
  induction ls as [|l ls IH]; intros s; cbn [fold_left metadata_records];
    [reflexivity|].
  rewrite IH, handle_line_record.
  destruct (line_record JSON_parse l) as [data|]; [|reflexivity].
  unfold handle_record.
  destruct (dispatch data) as [[]|]; try reflexivity.
  - cbn [metadata setMetadata]. now rewrite last_cons_default.
  - destruct (truthy md); reflexivity.
Qed.

(** X4. The metadata cell after a run is the last metadata record the
    stream carried; when it carried none, the cell still holds what it
    held before the run, since opening a run does not clear it. *)
Theorem metadata_is_last_record_or_stale
  (status : nat) (ending : StreamEnd) (chunks : list string) (s : State) :
  metadata (start (Responded true status (Some (chunks, ending))) s)
  = last (metadata_records JSON_parse (lines_of (joined chunks))) (metadata s).
Proof.
  destruct ending as [|message].
  - now rewrite start_streamed, metadata_fold.
  - rewrite start_rejected. cbn [metadata setIsProcessing setError].
    now rewrite metadata_fold.
Qed.

(** X5. Every answer other than a body whose reads end normally clears the
    processing flag and leaves a string in the error cell: a rejected fetch,
    a status outside 2xx, a missing body, a rejected read. *)
Theorem every_failure_is_shown (resp : FetchOutcome) (s : State) :
  fails resp = true ->
  isProcessing (start resp s) = false
  /\ exists message, error (start resp s) = JStr message.
Proof.
  destruct resp as [message | [|] status [[chunks [|message]]|]];
    cbn [fails]; intros H; try discriminate;
    (split; [reflexivity | eexists; reflexivity]).
Qed.

End RunSummaryFacts.

Section FirstRunFacts.
Import Js Text Streaming Records RunSummary.

Variable JSON_parse : string -> option JsValue.
Variable ToNumber_other : JsValue -> float.

Local Notation "'handle'" :=
  (fun st line => handle_line JSON_parse ToNumber_other JNull line st).

Lemma progress_fold_null_closure (ls : list string) :
  forall s : State,
    progress (fold_left handle ls s)
    = if existsb (takes JSON_parse OnComplete) ls then 100%float else progress s.
Proof.
  induction ls as [|l ls IH]; intros s; cbn [fold_left existsb]; [reflexivity|].
  rewrite IH, handle_line_record.
  destruct (line_record JSON_parse l) as [data|] eqn:El.
  - rewrite progress_handle_record, (takes_dispatch _ _ _ _ El).
    destruct (dispatch data) as [[]|]; cbn; try reflexivity.
    now destruct (existsb (takes JSON_parse OnComplete) ls).
  - now rewrite (takes_no_record _ _ _ El).
Qed.

(** X6. In the run started by [canplay] after the component mounted, the
    progress is 0 until a complete record arrives and 100 from then on,
    whatever metadata and [frame_result] records the stream carries. *)
Theorem first_run_progress_is_0_or_100
  (status : nat) (ending : StreamEnd) (chunks : list string) :
  progress (on_canplay_after_mount JSON_parse ToNumber_other
              (Responded true status (Some (chunks, ending))))
  = if existsb (takes JSON_parse OnComplete) (lines_of (joined chunks))
    then 100%float else 0%float.
Proof.
  unfold on_canplay_after_mount. destruct ending as [|message].
  - now rewrite start_streamed, progress_fold_null_closure.
  - rewrite start_rejected. cbn [progress setIsProcessing setError].
    now rewrite progress_fold_null_closure.
Qed.

End FirstRunFacts.

Section OverlapIsolation.
Import Js Text Streaming Overlap RunSummary.

Variable JSON_parse : string -> option JsValue.
Variable ToNumber_other : JsValue -> float.

Local Notation "'run_events'" := (exec JSON_parse ToNumber_other).

Lemma nth_error_set_nth_other {A : Type} (l : list A) :
  forall (i j : nat) (x : A),
    i <> j -> nth_error (set_nth j x l) i = nth_error l i.
Proof.
  induction l as [|h l IH]; intros [|i] [|j] x Hij; cbn; try reflexivity.
  - congruence.
  - apply IH. congruence.
Qed.

Lemma loop_follows_its_own_reads (events : list Event) :
  forall (c : Component) (i : nat) (md : JsValue) (t : string),
    nth_error (loops c) i = Some (mkLoop md (tail_of t)) ->
    nth_error (loops (run_events events c)) i
    = Some (mkLoop md (tail_of (t ++ joined (reads_of i events))%string)).
Proof.
  induction events as [|e events IH]; intros c i md t Hi.
  - cbn [exec fold_left reads_of joined]. now rewrite append_empty_r.
  - destruct e as [md' | j chunk].
    + cbn [reads_of]. apply (IH (step JSON_parse ToNumber_other c (Invoke md'))).
      cbn [step loops]. rewrite nth_error_app1; [exact Hi|].
      apply nth_error_Some. congruence.
    + cbn [reads_of]. destruct (Nat.eqb j i) eqn:Eji.
      * apply Nat.eqb_eq in Eji. subst j. cbn [joined].
        rewrite <- append_assoc.
        apply (IH (step JSON_parse ToNumber_other c (Read i chunk))).
        cbn [step]. rewrite Hi. cbn [closure_metadata buffer].
        unfold read_chunk. cbn [loops].
        rewrite (nth_error_set_nth _ _ _ _ Hi).
        change (last (split LF (tail_of t ++ chunk)%string) "")
          with (tail_of (tail_of t ++ chunk)%string).
        now rewrite <- tail_of_app.
      * apply Nat.eqb_neq in Eji.
        apply (IH (step JSON_parse ToNumber_other c (Read j chunk))).
        cbn [step]. destruct (nth_error (loops c) j) as [l|]; [|exact Hi].
        unfold read_chunk. cbn [loops].
        rewrite nth_error_set_nth_other by congruence. exact Hi.
Qed.

(** X7. The line buffer and the captured [metadata] belong to each run:
    whatever invocations and reads of other runs follow an invocation, the
    unparsed remainder its loop holds is what follows the last LF of its
    own stream, and the [metadata] it reads is still the one it captured. *)
Theorem run_keeps_its_own_buffer
  (md : JsValue) (events : list Event) (c : Component) :
  nth_error (loops (run_events (Invoke md :: events) c)) (List.length (loops c))
  = Some (mkLoop md
            (tail_of (joined (reads_of (List.length (loops c)) events)))).
Proof.
  change (run_events (Invoke md :: events) c)
    with (run_events events (step JSON_parse ToNumber_other c (Invoke md))).
  apply (loop_follows_its_own_reads events _ _ md "").
  cbn [step loops]. rewrite nth_error_app2 by apply Nat.le_refl.
  now rewrite Nat.sub_diag.
Qed.

End OverlapIsolation.

Section StreamWitnesses.
Import Js Text Streaming Records RunSummary Samples.

(** One line in one chunk against the same line read byte by byte in
    three. *)
Lemma chunk_boundaries_witness :
  processStream Json.parse to_number_other JNull
    [Json.dq "{'type':"; Json.dq "'complete'}"; Json.nl] "" initial
  = processStream Json.parse to_number_other JNull [line complete] "" initial.
Proof.
  exact (processStream_ignores_chunk_boundaries Json.parse to_number_other JNull
           [Json.dq "{'type':"; Json.dq "'complete'}"; Json.nl] [line complete]
           initial eq_refl).
Defined.

(** A complete record sent without its LF: the run ends as if it had not
    been sent, with the flag still set. *)
Lemma unterminated_complete_witness :
  first_run ([line frame_10] ++ [Json.dq complete]) = first_run [line frame_10]
  /\ isProcessing (first_run ([line frame_10] ++ [Json.dq complete])) = true.
Proof.
  pose proof (unterminated_last_line_is_dropped Json.parse to_number_other JNull
                200 Done [line frame_10] (Json.dq complete) initial eq_refl) as H.
  split; [exact H | reflexivity].
Defined.

(** A 500 answer. *)
Lemma failure_witness_http_500 :
  isProcessing (startStreamingDetection Json.parse to_number_other JNull
                  (Responded false 500 None) initial) = false
  /\ exists message,
       error (startStreamingDetection Json.parse to_number_other JNull
                (Responded false 500 None) initial) = JStr message.
Proof.
  exact (every_failure_is_shown Json.parse to_number_other JNull
           (Responded false 500 None) initial eq_refl).
Defined.

(** The message of a 500 answer, as displayed. *)
Lemma http_500_message :
  error (startStreamingDetection Json.parse to_number_other JNull
           (Responded false 500 None) initial)
  = JStr "Failed to start streaming: HTTP error! status: 500".
Proof. reflexivity. Qed.

End StreamWitnesses.

(* ================================================================== *)
(** ** Comparison of binary64 numbers *)

Section FloatOrder.

Local Open Scope Z_scope.

Lemma SFcompare_finite_lt (s1 s2 : bool) (m1 m2 : positive) (e1 e2 : Z) :
  SFcompare (S754_finite s1 m1 e1) (S754_finite s2 m2 e2) = Some Lt
  <-> match s1, s2 with
      | true, false => True
      | false, true => False
      | false, false => e1 < e2 \/ (e1 = e2 /\ (m1 < m2)%positive)
      | true, true => e2 < e1 \/ (e1 = e2 /\ (m2 < m1)%positive)
      end.
Proof.
  cbn [SFcompare]. change (Pos.compare_cont Eq m1 m2) with (Pos.compare m1 m2).
  destruct s1, s2; try (split; [easy | intros H; try reflexivity; contradiction]);
    destruct (Z.compare_spec e1 e2) as [He|He|He];
    destruct (Pos.compare_spec m1 m2) as [Hm|Hm|Hm]; cbn;
    (split; [intros H; try discriminate H; lia
            | intros H; try reflexivity; exfalso; lia]).
Qed.

Lemma SFltb_irrefl (a : spec_float) : SFltb a a = false.
Proof.
  unfold SFltb. destruct a as [s|s| |s m e]; cbn; try reflexivity.
  - destruct s; reflexivity.
  - destruct s; rewrite Z.compare_refl, Pos.compare_cont_refl; reflexivity.
Qed.

Lemma SFltb_true (a b : spec_float) :
  SFltb a b = true <-> SFcompare a b = Some Lt.
Proof.
  unfold SFltb. destruct (SFcompare a b) as [[]|]; split; congruence.
Qed.

Lemma SFltb_trans (a b c : spec_float) :
  SFltb a b = true -> SFltb b c = true -> SFltb a c = true.
Proof.
  rewrite !SFltb_true.
  destruct a as [sa|sa| |sa ma ea], b as [sb|sb| |sb mb eb],
    c as [sc|sc| |sc mc ec];
    try (cbn; discriminate);
    try (cbn; destruct sa; try destruct sb; try destruct sc;
         congruence).
  rewrite !SFcompare_finite_lt.
  destruct sa, sb, sc; try tauto; lia.
Qed.

Lemma SFeqb_refl (a : spec_float) : a <> S754_nan -> SFeqb a a = true.
Proof.
  unfold SFeqb. destruct a as [s|s| |s m e]; cbn; try reflexivity.
  - destruct s; reflexivity.
  - congruence.
  - destruct s; rewrite Z.compare_refl, Pos.compare_cont_refl; reflexivity.
Qed.

(** Two numbers that compare equal are the same, or two zeros. *)
Lemma SFeqb_true (a b : spec_float) :
  SFeqb a b = true ->
  (a = b /\ a <> S754_nan) \/ (exists s t, a = S754_zero s /\ b = S754_zero t).
Proof.
  unfold SFeqb.
  destruct a as [sa|sa| |sa ma ea], b as [sb|sb| |sb mb eb]; cbn [SFcompare];
    try discriminate;
    try (destruct sa; discriminate);
    try (destruct sb; discriminate).
  - intros _. right. now exists sa, sb.
  - destruct sa, sb; try discriminate; intros _; left; split; congruence.
  - change (Pos.compare_cont Eq ma mb) with (Pos.compare ma mb).
    destruct sa, sb; try discriminate;
      destruct (Z.compare_spec ea eb) as [He|He|He]; try discriminate;
      destruct (Pos.compare_spec ma mb) as [Hm|Hm|Hm]; try discriminate;
      intros _; left; subst; split; congruence.
Qed.

Local Close Scope Z_scope.

Lemma ltb_irrefl (a : float) : PrimFloat.ltb a a = false.
Proof. rewrite ltb_spec. apply SFltb_irrefl. Qed.

Lemma ltb_trans (a b c : float) :
  PrimFloat.ltb a b = true -> PrimFloat.ltb b c = true ->
  PrimFloat.ltb a c = true.
Proof. rewrite !ltb_spec. apply SFltb_trans. Qed.

Lemma ltb_not_nan (a b : float) :
  PrimFloat.ltb a b = true -> Prim2SF a <> S754_nan.
Proof.
  rewrite ltb_spec. intros H E. rewrite E in H. discriminate.
Qed.

Lemma eqb_refl_not_nan (a : float) :
  Prim2SF a <> S754_nan -> PrimFloat.eqb a a = true.
Proof. rewrite eqb_spec. apply SFeqb_refl. Qed.

Lemma is_nan_spec (a : float) :
  PrimFloat.is_nan a = true -> Prim2SF a = S754_nan.
Proof.
  unfold PrimFloat.is_nan. rewrite eqb_spec. intros H.
  apply negb_true_iff in H.
  destruct (Prim2SF a) as [s|s| |s m e] eqn:E; try reflexivity;
    rewrite SFeqb_refl in H; discriminate.
Qed.

(** [|f - c|] is NaN as soon as [f] or [c] is. *)
Lemma distance_nan_l (f c : float) :
  Prim2SF f = S754_nan ->
  Prim2SF (PrimFloat.abs (PrimFloat.sub f c)) = S754_nan.
Proof.
  intros H. rewrite abs_spec, sub_spec, H. reflexivity.
Qed.

Lemma distance_nan_r (f c : float) :
  Prim2SF c = S754_nan ->
  Prim2SF (PrimFloat.abs (PrimFloat.sub f c)) = S754_nan.
Proof.
  intros H. rewrite abs_spec, sub_spec, H.
  destruct (Prim2SF f); reflexivity.
Qed.

(** The distance to [c] does not tell the two zeros apart; so numbers
    that compare equal are at the same distance. *)
Lemma distance_eqb (f g c : float) :
  PrimFloat.eqb f g = true ->
  PrimFloat.abs (PrimFloat.sub f c) = PrimFloat.abs (PrimFloat.sub g c).
Proof.
  rewrite eqb_spec. intros H.
  destruct (SFeqb_true _ _ H) as [[E _] | [s [t [Ef Eg]]]].
  - apply Prim2SF_inj in E. now subst.
  - apply Prim2SF_inj. rewrite !abs_spec, !sub_spec, Ef, Eg.
    destruct (Prim2SF c) as [sc|sc| |sc mc ec]; try reflexivity.
    destruct s, t, sc; reflexivity.
Qed.

End FloatOrder.

(* ================================================================== *)
(** ** The frame filter of the inference panel *)

Section ClosestFacts.
Import InferencePanel ClosestScan.

Variable D : Type.
Variable frame_number_of : D -> option float.
Variable currentFrame : float.

Local Notation "'scanned'" := (ClosestScan.scanned D frame_number_of currentFrame).

Local Notation "'dist'" :=
  (fun f => PrimFloat.abs (PrimFloat.sub f currentFrame)).
Local Notation "'scan'" := (fold_left (visit frame_number_of currentFrame)).

Lemma visit_scanned (seen : list D) (acc : float * option float) (d : D) :
  scanned seen acc ->
  scanned (seen ++ [d]) (visit frame_number_of currentFrame acc d).
Proof.
  intros [Hmin Hacc]. unfold visit.
  destruct (frame_number_of d) as [f|] eqn:Ef.
  - destruct (PrimFloat.ltb (PrimFloat.abs (PrimFloat.sub f currentFrame))
                (fst acc)) eqn:Hlt.
    + split; cbn [fst snd].
      * intros d' f' Hin Hf'. apply in_app_or in Hin as [Hin|[<-|[]]].
        -- destruct (PrimFloat.ltb
                       (PrimFloat.abs (PrimFloat.sub f' currentFrame))
                       (PrimFloat.abs (PrimFloat.sub f currentFrame))) eqn:E;
             [|reflexivity].
           rewrite <- (Hmin d' f' Hin Hf'). symmetry.
           exact (ltb_trans _ _ _ E Hlt).
        -- rewrite Ef in Hf'. injection Hf' as <-. apply ltb_irrefl.
      * split; [reflexivity|]. split.
        -- destruct (snd acc) as [c|].
           ++ destruct Hacc as [_ [Hfin _]]. exact (ltb_trans _ _ _ Hlt Hfin).
           ++ now rewrite <- Hacc.
        -- exists d. split; [apply in_or_app; right; now left | exact Ef].
    + split.
      * intros d' f' Hin Hf'. apply in_app_or in Hin as [Hin|[<-|[]]].
        -- exact (Hmin d' f' Hin Hf').
        -- rewrite Ef in Hf'. injection Hf' as <-. exact Hlt.
      * destruct (snd acc) as [c|]; [|exact Hacc].
        destruct Hacc as [H1 [H2 [d0 [Hin Hd0]]]].
        repeat split; try assumption.
        exists d0. split; [apply in_or_app; now left | exact Hd0].
  - split.
    + intros d' f' Hin Hf'. apply in_app_or in Hin as [Hin|[<-|[]]].
      * exact (Hmin d' f' Hin Hf').
      * congruence.
    + destruct (snd acc) as [c|]; [|exact Hacc].
      destruct Hacc as [H1 [H2 [d0 [Hin Hd0]]]].
      repeat split; try assumption.
      exists d0. split; [apply in_or_app; now left | exact Hd0].
Qed.

Lemma scan_scanned (ds : list D) :
  forall (seen : list D) (acc : float * option float),
    scanned seen acc -> scanned (seen ++ ds) (scan ds acc).
Proof.
  induction ds as [|d ds IH]; intros seen acc H; cbn [fold_left].
  - now rewrite app_nil_r.
  - replace (seen ++ d :: ds) with ((seen ++ [d]) ++ ds)
      by now rewrite <- app_assoc.
    apply IH, visit_scanned, H.
Qed.

Lemma closestFrame_scanned (ds : list D) :
  scanned ds (scan ds (PrimFloat.infinity, None)).
Proof.
  apply (scan_scanned ds [] (PrimFloat.infinity, None)).
  split; [intros d f []|reflexivity].
Qed.

(** What the filter of the last step keeps. *)
Lemma shown_has_closest_frame (ds : list D) (d : D) :
  existsb (has_frame_number frame_number_of) ds = true ->
  In d (getClosestDetections frame_number_of currentFrame ds) ->
  In d ds
  /\ exists f c,
       frame_number_of d = Some f
       /\ closestFrame frame_number_of currentFrame ds = Some c
       /\ PrimFloat.eqb f c = true.
Proof.
  intros Hsome Hin. unfold getClosestDetections in Hin.
  destruct ds as [|d0 ds']; [contradiction|].
  rewrite Hsome in Hin. cbn [negb] in Hin.
  apply filter_In in Hin as [Hin Hsame]. split; [exact Hin|].
  unfold same_frame in Hsame.
  destruct (frame_number_of d) as [f|]; [|discriminate].
  destruct (closestFrame frame_number_of currentFrame (d0 :: ds')) as [c|];
    [|discriminate].
  now exists f, c.
Qed.

Lemma no_frame_number_none (ds : list D) (d : D) :
  existsb (has_frame_number frame_number_of) ds = false ->
  In d ds -> frame_number_of d = None.
Proof.
  intros H Hin. destruct (frame_number_of d) as [f|] eqn:E; [|reflexivity].
  assert (existsb (has_frame_number frame_number_of) ds = true).
  { apply existsb_exists. exists d. split; [exact Hin|].
    unfold has_frame_number. now rewrite E. }
  congruence.
Qed.

Lemma shown_subset (ds : list D) (d : D) :
  In d (getClosestDetections frame_number_of currentFrame ds) -> In d ds.
Proof.
  unfold getClosestDetections. destruct ds as [|d0 ds']; [easy|].
  destruct (negb (existsb (has_frame_number frame_number_of) (d0 :: ds')));
    [easy|].
  intros H. now apply filter_In in H.
Qed.

Lemma filter_no_closest_frame (l : list D) :
  filter (fun d => same_frame (frame_number_of d) None) l = [].
Proof.
  induction l as [|y ys IH]; [reflexivity|].
  cbn [filter]. unfold same_frame at 1.
  destruct (frame_number_of y); exact IH.
Qed.

(** X8. No detection is strictly nearer to the current frame than a
    detection [getClosestDetections] returns: when a returned detection has
    frame number [f], no detection of the list has a frame number whose
    distance to the current frame is below that of [f]. *)
Theorem closest_detections_are_nearest
  (ds : list D) (d d' : D) (f f' : float) :
  In d (getClosestDetections frame_number_of currentFrame ds) ->
  frame_number_of d = Some f ->
  In d' ds ->
  frame_number_of d' = Some f' ->
  PrimFloat.ltb (PrimFloat.abs (PrimFloat.sub f' currentFrame))
    (PrimFloat.abs (PrimFloat.sub f currentFrame)) = false.
Proof.
  intros Hd Hf Hd' Hf'.
  destruct (existsb (has_frame_number frame_number_of) ds) eqn:Hsome.
  - destruct (shown_has_closest_frame ds d Hsome Hd)
      as [_ [g [c [Hg [Hc Heq]]]]].
    rewrite Hf in Hg. injection Hg as <-.
    rewrite (distance_eqb f c currentFrame Heq).
    destruct (closestFrame_scanned ds) as [Hmin Hacc].
    unfold closestFrame in Hc. rewrite Hc in Hacc.
    destruct Hacc as [Hfst _]. rewrite <- Hfst.
    exact (Hmin d' f' Hd' Hf').
  - pose proof (no_frame_number_none ds d' Hsome Hd'). congruence.
Qed.

(** X9. When some detection carries a frame number, all the detections
    returned carry one, and they all carry the same. *)
Theorem closest_detections_share_a_frame (ds : list D) (d1 d2 : D) :
  existsb (has_frame_number frame_number_of) ds = true ->
  In d1 (getClosestDetections frame_number_of currentFrame ds) ->
  In d2 (getClosestDetections frame_number_of currentFrame ds) ->
  exists f1 f2,
    frame_number_of d1 = Some f1 /\ frame_number_of d2 = Some f2
    /\ PrimFloat.eqb f1 f2 = true.
Proof.
  intros Hsome H1 H2.
  destruct (shown_has_closest_frame ds d1 Hsome H1)
    as [_ [f1 [c1 [Hf1 [Hc1 He1]]]]].
  destruct (shown_has_closest_frame ds d2 Hsome H2)
    as [_ [f2 [c2 [Hf2 [Hc2 He2]]]]].
  rewrite Hc1 in Hc2. injection Hc2 as Hcc. subst c2.
  exists f1, f2. repeat split; try assumption.
  rewrite eqb_spec in He1, He2 |- *.
  destruct (SFeqb_true _ _ He1) as [[E1 N1] | [s1 [t1 [E1 C1]]]];
    destruct (SFeqb_true _ _ He2) as [[E2 N2] | [s2 [t2 [E2 C2]]]].
  - rewrite E1, <- E2. now apply SFeqb_refl.
  - rewrite E1, C2, E2. reflexivity.
  - rewrite E1, E2, C1. reflexivity.
  - rewrite E1, E2. reflexivity.
Qed.

(** X10. The filter returns something exactly when it can: with a
    detection whose frame number is at a finite distance from the current
    frame the result is not empty; when detections carry frame numbers but
    none is at a finite distance (the current frame is NaN, say), nothing is
    returned, although the list is not empty. *)
Theorem closest_detections_empty_or_not (ds : list D) :
  (forall d f,
     In d ds -> frame_number_of d = Some f ->
     PrimFloat.ltb (PrimFloat.abs (PrimFloat.sub f currentFrame))
       PrimFloat.infinity = true ->
     getClosestDetections frame_number_of currentFrame ds <> [])
  /\ (existsb (has_frame_number frame_number_of) ds = true ->
      (forall d f,
         In d ds -> frame_number_of d = Some f ->
         PrimFloat.ltb (PrimFloat.abs (PrimFloat.sub f currentFrame))
           PrimFloat.infinity = false) ->
      getClosestDetections frame_number_of currentFrame ds = []).
Proof.
  destruct (closestFrame_scanned ds) as [Hmin Hacc]. split.
  - intros d f Hd Hf Hfin.
    assert (Hsome : existsb (has_frame_number frame_number_of) ds = true).
    { apply existsb_exists. exists d. split; [exact Hd|].
      unfold has_frame_number. now rewrite Hf. }
    destruct (closestFrame frame_number_of currentFrame ds) as [c|] eqn:Hc;
      unfold closestFrame in Hc; rewrite Hc in Hacc.
    + destruct Hacc as [Hfst [Hlt [d0 [Hd0 Hf0]]]].
      assert (Hcc : PrimFloat.eqb c c = true).
      { apply eqb_refl_not_nan. intros Hnan.
        apply (ltb_not_nan _ _ Hlt). rewrite Hfst.
        now apply distance_nan_l. }
      assert (Hin : In d0 (getClosestDetections frame_number_of currentFrame ds)).
      { unfold getClosestDetections. destruct ds as [|x xs]; [contradiction|].
        rewrite Hsome. cbn [negb]. apply filter_In. split; [exact Hd0|].
        unfold closestFrame. rewrite Hc, Hf0. exact Hcc. }
      intros Hnil. now rewrite Hnil in Hin.
    + pose proof (Hmin d f Hd Hf) as Hno. rewrite Hacc in Hno. congruence.
  - intros Hsome Hfar.
    assert (Hnone : closestFrame frame_number_of currentFrame ds = None).
    { destruct (closestFrame frame_number_of currentFrame ds) as [c|] eqn:Hc;
        [|reflexivity].
      unfold closestFrame in Hc. rewrite Hc in Hacc.
      destruct Hacc as [Hfst [Hlt [d0 [Hd0 Hf0]]]].
      rewrite Hfst, (Hfar d0 c Hd0 Hf0) in Hlt. discriminate. }
    unfold getClosestDetections. destruct ds as [|x xs]; [reflexivity|].
    rewrite Hsome, Hnone. cbn [negb]. apply filter_no_closest_frame.
Qed.

End ClosestFacts.

Section ClosestWitnesses.
Import InferencePanel PanelSamples.

(** At frame 12 the two detections of frame 10 are returned, in the order
    of the list. *)
Lemma closest_of_four_at_12 :
  getClosestDetections frame_of 12%float four
  = [(1, Some 10%float); (2, Some 10%float)].
Proof. reflexivity. Qed.

Lemma nearest_witness_frame_20_not_nearer :
  PrimFloat.ltb (PrimFloat.abs (PrimFloat.sub 20%float 12%float))
    (PrimFloat.abs (PrimFloat.sub 10%float 12%float)) = false.
Proof.
  exact (closest_detections_are_nearest (nat * option float) frame_of 12%float
           four (1, Some 10%float) (3, Some 20%float) 10%float 20%float
           (or_introl eq_refl) eq_refl
           (or_intror (or_intror (or_introl eq_refl))) eq_refl).
Defined.

Lemma share_a_frame_witness :
  exists f1 f2,
    frame_of (1, Some 10%float) = Some f1
    /\ frame_of (2, Some 10%float) = Some f2
    /\ PrimFloat.eqb f1 f2 = true.
Proof.
  exact (closest_detections_share_a_frame (nat * option float) frame_of 12%float
           four (1, Some 10%float) (2, Some 10%float) eq_refl
           (or_introl eq_refl) (or_intror (or_introl eq_refl))).
Defined.

Lemma not_empty_witness_at_12 :
  getClosestDetections frame_of 12%float four <> [].
Proof.
  exact (proj1 (closest_detections_empty_or_not (nat * option float) frame_of
                  12%float four)
           (3, Some 20%float) 20%float
           (or_intror (or_intror (or_introl eq_refl))) eq_refl eq_refl).
Defined.

(** With a current frame that is NaN nothing is returned. *)
Lemma closest_of_four_at_nan :
  getClosestDetections frame_of PrimFloat.nan four = [].
Proof. reflexivity. Qed.

End ClosestWitnesses.

(* ================================================================== *)
(** ** The batch call and the upload of the inference panel *)

Section BatchFacts.
Import Js BatchDetection Defaults InferencePanel UploadOutcome.

Variable rnd now : nat -> string.

Lemma formatDetection_nullish (r n : string) (d : JsValue) :
  is_nullish d = true -> formatDetection r n d = None.
Proof. destruct d; cbn; intros H; try discriminate; reflexivity. Qed.

Lemma map_format_nullish (items : list JsValue) :
  existsb is_nullish items = true ->
  forall i : nat, map_format rnd now i items = None.
Proof.
  induction items as [|d items IH]; cbn [existsb]; intros H i; [discriminate|].
  cbn [map_format]. destruct (is_nullish d) eqn:Hd.
  - now rewrite (formatDetection_nullish _ _ d Hd).
  - cbn [orb] in H. rewrite (IH H (S i)).
    destruct (formatDetection (rnd i) (now i) d); reflexivity.
Qed.

Lemma app_one_inj {A : Type} (l : list A) (x y : A) :
  l ++ [x] = l ++ [y] -> x = y.
Proof. intros H. apply app_inv_head in H. now injection H. Qed.

Lemma app_one_neq {A : Type} (l : list A) (x : A) : l ++ [x] <> l.
Proof.
  intros H. apply (f_equal (@List.length A)) in H.
  rewrite length_app in H. cbn in H. lia.
Qed.

(** X11. Whatever the detection call answers, [processUploadedVideo] does
    one of two things: it stores the list made of the formatted elements of
    the [detections] array of the body and marks the video processed,
    without any alert; or it shows exactly one alert and leaves the stored
    detections and the processed mark as they were. *)
Theorem batch_stores_or_alerts_once (resp : BatchResponse) (p : Panel) :
  let p' := processUploadedVideo rnd now resp p in
  (exists result items formatted,
     resp = OkJson (Some result)
     /\ get_opt result "detections" = JArr items
     /\ map_format rnd now 0 items = Some formatted
     /\ p' = {| detections := formatted; hasProcessedVideo := true;
                alerts := alerts p |})
  \/ (exists message,
        alerts p' = alerts p ++ [message]
        /\ detections p' = detections p
        /\ hasProcessedVideo p' = hasProcessedVideo p).
Proof.
  cbv zeta. unfold processUploadedVideo.
  destruct resp as [|errorText|[result|]];
    try (right; eexists; repeat split; reflexivity).
  unfold and_then.
  destruct (truthy result) eqn:Hres.
  - destruct (truthy (get_opt result "detections")) eqn:Ht;
      [|right; eexists; repeat split; reflexivity].
    destruct (get_opt result "detections") as [| |b|x|str|items|fields] eqn:Hd;
      try (right; eexists; repeat split; reflexivity).
    destruct (map_format rnd now 0 items) as [formatted|] eqn:Hm;
      [|right; eexists; repeat split; reflexivity].
    left. exists result, items, formatted. now repeat split.
  - rewrite Hres. right; eexists; repeat split; reflexivity.
Qed.

(** X12. One [null] among the raw detections aborts the whole batch:
    nothing is stored, not even the detections before it, and the alert is
    the one of a failed call. *)
Theorem null_detection_aborts_batch
  (result : JsValue) (items : list JsValue) (p : Panel) :
  get_opt result "detections" = JArr items ->
  existsb is_nullish items = true ->
  processUploadedVideo rnd now (OkJson (Some result)) p
  = show_alert msg_exception p.
Proof.
  intros Hdets Hnull. unfold processUploadedVideo.
  assert (Ht : truthy result = true).
  { destruct result; cbn in Hdets; try discriminate. reflexivity. }
  unfold and_then. rewrite Ht, Hdets. cbn [truthy].
  now rewrite (map_format_nullish items Hnull 0).
Qed.

(** X13. The alert that no detections were found is shown exactly when the
    body, or its [detections] field, is falsy. An empty array is truthy: it
    is stored as an empty list, the video is marked processed and no alert
    is shown. *)
Theorem no_detections_alert_iff_falsy (result : JsValue) (p : Panel) :
  let p' := processUploadedVideo rnd now (OkJson (Some result)) p in
  (alerts p' = alerts p ++ [msg_no_detections]
   <-> truthy (and_then result (get_opt result "detections")) = false)
  /\ (get_opt result "detections" = JArr [] ->
      p' = {| detections := []; hasProcessedVideo := true; alerts := alerts p |}).
Proof.
  cbv zeta. unfold processUploadedVideo. split.
  - destruct (truthy (and_then result (get_opt result "detections"))) eqn:Ht.
    + split; [|discriminate]. intros H. exfalso.
      destruct (and_then result (get_opt result "detections"));
        try (cbn in H; apply app_one_inj in H; discriminate).
      destruct (map_format rnd now 0 items).
      * cbn in H. symmetry in H. exact (app_one_neq _ _ H).
      * cbn in H. apply app_one_inj in H. discriminate.
    + split; reflexivity.
  - intros Hdets.
    assert (Ht : truthy result = true).
    { destruct result; cbn in Hdets; try discriminate. reflexivity. }
    unfold and_then. rewrite Ht, Hdets. reflexivity.
Qed.

(** X14. When the upload of a video file fails in any way (the request is
    rejected, the status is outside 2xx, the body cannot be read or is
    [null], the [video_id] is missing or falsy), [handleVideoUpload] leaves
    the panel with no detections, not processed, and with no alert shown:
    the failure goes to the console only. *)
Theorem failed_panel_upload_is_silent
  (f : File) (upload : UploadResponse) (batch : BatchResponse) (v : View) :
  String.prefix "video/" (file_type f) = true ->
  video_id_of upload = None ->
  handleVideoUpload rnd now (Some f) upload batch v = begin_upload f v
  /\ alerts (panel (handleVideoUpload rnd now (Some f) upload batch v))
     = alerts (panel v)
  /\ detections (panel (handleVideoUpload rnd now (Some f) upload batch v)) = []
  /\ hasProcessedVideo (panel (handleVideoUpload rnd now (Some f) upload batch v))
     = false.
Proof.
  intros Hvideo Hid.
  assert (H : handleVideoUpload rnd now (Some f) upload batch v = begin_upload f v).
  { unfold handleVideoUpload. rewrite Hvideo. unfold video_id_of in Hid.
    destruct upload as [| |[result|]]; try reflexivity.
    destruct (get result "video_id") as [videoId|]; [|reflexivity].
    destruct (truthy videoId); [discriminate|reflexivity]. }
  rewrite H. now repeat split.
Qed.

(** A file that is not a video, or no file: nothing is written. *)
Lemma handleVideoUpload_not_a_video
  (f : File) (upload : UploadResponse) (batch : BatchResponse) (v : View) :
  String.prefix "video/" (file_type f) = false ->
  handleVideoUpload rnd now (Some f) upload batch v = v.
Proof. intros H. unfold handleVideoUpload. now rewrite H. Qed.

End BatchFacts.

Section BatchWitnesses.
Import Js BatchDetection Defaults InferencePanel UploadOutcome.

(** A good detection followed by [null]. *)
Lemma null_detection_witness :
  processUploadedVideo (fun _ => "0.5") (fun _ => "2024-01-01T00:00:00.000Z")
    (OkJson (Some (JObj [("detections",
                          JArr [JObj [("id", JStr "d1")]; JNull])])))
    (mkPanel [] false [])
  = mkPanel [] false [msg_exception].
Proof.
  exact (null_detection_aborts_batch (fun _ => "0.5")
           (fun _ => "2024-01-01T00:00:00.000Z")
           (JObj [("detections", JArr [JObj [("id", JStr "d1")]; JNull])])
           [JObj [("id", JStr "d1")]; JNull] (mkPanel [] false [])
           eq_refl eq_refl).
Defined.

(** An empty array of detections. *)
Lemma empty_detections_witness :
  processUploadedVideo (fun _ => "0.5") (fun _ => "2024-01-01T00:00:00.000Z")
    (OkJson (Some (JObj [("detections", JArr [])]))) (mkPanel [] false [])
  = mkPanel [] true [].
Proof.
  exact (proj2 (no_detections_alert_iff_falsy (fun _ => "0.5")
                  (fun _ => "2024-01-01T00:00:00.000Z")
                  (JObj [("detections", JArr [])]) (mkPanel [] false []))
           eq_refl).
Defined.

(** A video whose upload is answered with a status outside 2xx. *)
Lemma silent_upload_witness :
  handleVideoUpload (fun _ => "0.5") (fun _ => "2024-01-01T00:00:00.000Z")
    (Some (mkFile "video/mp4" "blob:1")) UploadNotOk FetchRejected
    (mkView (mkPanel [] true ["earlier"]) None live true)
  = mkView (mkPanel [] false ["earlier"]) (Some "blob:1") uploaded false.
Proof.
  exact (proj1 (failed_panel_upload_is_silent (fun _ => "0.5")
                  (fun _ => "2024-01-01T00:00:00.000Z")
                  (mkFile "video/mp4" "blob:1") UploadNotOk FetchRejected
                  (mkView (mkPanel [] true ["earlier"]) None live true)
                  eq_refl eq_refl)).
Defined.

End BatchWitnesses.

(* ================================================================== *)
(** ** The label filter of the inference panel *)

Section ExcludedLabelsFacts.
Import InferencePanel.

Lemma includes_app (l1 l2 : list string) (x : string) :
  includes (l1 ++ l2) x = includes l1 x || includes l2 x.
Proof. unfold includes. apply existsb_app. Qed.

Lemma includes_In (l : list string) (x : string) :
  includes l x = true <-> In x l.
Proof.
  unfold includes. rewrite existsb_exists. split.
  - intros [y [Hy Heq]]. apply String.eqb_eq in Heq. now subst.
  - intros H. exists x. split; [exact H | apply String.eqb_refl].
Qed.

Lemma includes_filter_out (l : list string) (label x : string) :
  includes (filter (fun y => negb (String.eqb y label)) l) x
  = includes l x && negb (String.eqb x label).
Proof.
  induction l as [|y l IH]; [reflexivity|].
  cbn [filter]. destruct (String.eqb y label) eqn:Ey; cbn [negb].
  - rewrite IH. unfold includes at 2. cbn [existsb]. fold (includes l x).
    apply String.eqb_eq in Ey. subst y.
    destruct (String.eqb x label); cbn; [now rewrite !andb_false_r|reflexivity].
  - unfold includes at 1 2. cbn [existsb]. fold (includes l x).
    fold (includes (filter (fun y0 => negb (String.eqb y0 label)) l) x).
    rewrite IH. destruct (String.eqb x y) eqn:Exy; [|reflexivity].
    apply String.eqb_eq in Exy. subst y. rewrite Ey. reflexivity.
Qed.

(** X15. After the checkbox of a label changed, the list says for that
    label what the checkbox says, however often the label was in the list
    before, and it says for every other label what it said before. *)
Theorem exclude_checkbox_sets_membership
  (label other : string) (checked : bool) (excludedLabels : list string) :
  includes (onExcludeChange label checked excludedLabels) label = checked
  /\ (other <> label ->
      includes (onExcludeChange label checked excludedLabels) other
      = includes excludedLabels other).
Proof.
  unfold onExcludeChange. destruct checked.
  - rewrite !includes_app. unfold includes at 2 4. cbn [existsb].
    rewrite String.eqb_refl. split; [now rewrite !orb_true_r|].
    intros Hne. apply String.eqb_neq in Hne. rewrite Hne.
    now rewrite !orb_false_r.
  - rewrite !includes_filter_out, String.eqb_refl. split.
    + now rewrite andb_false_r.
    + intros Hne. apply String.eqb_neq in Hne. rewrite Hne.
      now rewrite andb_true_r.
Qed.

(** X16. The exclude button of a detection adds the lower-cased label once:
    afterwards the list includes it, a list without repetition stays
    without repetition, and a second click changes nothing. *)
Theorem exclude_click_adds_once
  (detection_label : string) (excludedLabels : list string) :
  includes (onExcludeClick detection_label excludedLabels)
    (toLowerCase detection_label) = true
  /\ (NoDup excludedLabels ->
      NoDup (onExcludeClick detection_label excludedLabels))
  /\ onExcludeClick detection_label
       (onExcludeClick detection_label excludedLabels)
     = onExcludeClick detection_label excludedLabels.
Proof.
  assert (Hin : includes (onExcludeClick detection_label excludedLabels)
                  (toLowerCase detection_label) = true).
  { unfold onExcludeClick.
    destruct (includes excludedLabels (toLowerCase detection_label)) eqn:E;
      cbn [negb]; [exact E|].
    rewrite includes_app. unfold includes at 2. cbn [existsb].
    rewrite String.eqb_refl. now rewrite orb_true_r. }
  split; [exact Hin|]. split.
  - intros Hnd. unfold onExcludeClick.
    destruct (includes excludedLabels (toLowerCase detection_label)) eqn:E;
      cbn [negb]; [exact Hnd|].
    apply NoDup_app; [exact Hnd | apply NoDup_cons; [easy|apply NoDup_nil] |].
    intros x Hx [<-|[]]. apply includes_In in Hx. congruence.
  - unfold onExcludeClick at 1. now rewrite Hin.
Qed.

End ExcludedLabelsFacts.

(* ================================================================== *)
(** ** Tabs, badge and buttons of the alert panel *)

Section AlertListFacts.
Import AlertPanel.

Variable World : Type.

Lemma status_name_new (st : Status) :
  String.eqb (status_name st) "new" = match st with new => true | _ => false end.
Proof. destruct st; reflexivity. Qed.

(** X17. The action an item offers follows its status: Acknowledge exactly
    on new alerts, Resolve exactly on acknowledged ones, so never both and
    none of the two on a resolved alert; the details button always. *)
Theorem buttons_follow_status (a : Alert) :
  (In Acknowledge (buttons a) <-> status a = new)
  /\ (In Resolve (buttons a) <-> status a = acknowledged)
  /\ In ViewDetails (buttons a).
Proof.
  unfold buttons, is_new, is_acknowledged.
  destruct (status a); cbn; intuition congruence.
Qed.

(** X18. Under the New tab the panel lists exactly the alerts whose status
    is new, and the badge counts the critical ones among the alerts listed
    there; under the All tab every alert is listed. *)
Theorem new_tab_and_critical_badge (props : Props World) (a : Alert) :
  (In a (filteredAlerts props "new") <-> In a (alerts props) /\ status a = new)
  /\ criticalCount World props
     = List.length
         (filter (fun b => match severity b with critical => true | _ => false end)
            (filteredAlerts props "new"))
  /\ filteredAlerts props "all" = alerts props.
Proof.
  unfold filteredAlerts, criticalCount. cbn [String.eqb Ascii.eqb Bool.eqb].
  split; [|split; [|reflexivity]].
  - rewrite filter_In, status_name_new.
    destruct (status a); split; intros [H1 H2]; split;
      try assumption; try discriminate; reflexivity.
  - induction (alerts props) as [|b l IH]; [reflexivity|].
    cbn [filter]. rewrite status_name_new. unfold is_new at 1.
    destruct (severity b) eqn:Es, (status b) eqn:Est;
      cbn [filter]; rewrite ?Es; cbn [List.length]; rewrite ?IH; reflexivity.
Qed.

End AlertListFacts.

(* ================================================================== *)
(** ** More on the upload handler of the analysis page *)

Section UploadPageFacts.
Import Js VideoAnalysisPage.

(** X19. A [video_id] that is present but falsy (an empty string, [null],
    zero) counts as missing: both identifiers stay as they were, the
    message that no video ID was returned is set and [isUploading] is
    cleared. *)
Theorem falsy_video_id_counts_as_missing {File : Type}
  (file : File) (data : JsValue) (s : State) :
  truthy (get_opt data "video_id") = false ->
  handleFileUpload (Some file) (Resolved data) s
  = {| videoId := videoId s; uploadedVideoId := uploadedVideoId s;
       isUploading := false; uploadError := Some msg_no_id |}.
Proof.
  intros H. cbn. unfold and_then.
  destruct (truthy data) eqn:Hd; [rewrite H | rewrite Hd]; reflexivity.
Qed.

Lemma falsy_video_id_witness :
  handleFileUpload (Some "clip.mp4") (Resolved (JObj [("video_id", JStr "")]))
    initial
  = {| videoId := JStr ""; uploadedVideoId := JStr "";
       isUploading := false; uploadError := Some msg_no_id |}.
Proof.
  exact (falsy_video_id_counts_as_missing "clip.mp4"
           (JObj [("video_id", JStr "")]) initial eq_refl).
Defined.

(** A body with an identifier. *)
Lemma upload_success_witness :
  handleFileUpload (Some "clip.mp4")
    (Resolved (JObj [("video_id", JStr "ebc149d3")]))
    {| videoId := JStr ""; uploadedVideoId := JStr ""; isUploading := false;
       uploadError := Some msg_failed |}
  = {| videoId := JStr "ebc149d3"; uploadedVideoId := JStr "ebc149d3";
       isUploading := false; uploadError := None |}.
Proof.
  exact (handleFileUpload_success "clip.mp4"
           (JObj [("video_id", JStr "ebc149d3")])
           {| videoId := JStr ""; uploadedVideoId := JStr "";
              isUploading := false; uploadError := Some msg_failed |}
           eq_refl eq_refl).
Defined.

End UploadPageFacts.

(* ================================================================== *)
(** ** The video quality button *)

Section QualityFacts.
Import Home.

(** X21. The quality button cycles HD, 4K, SD: the next quality is always
    one of the three, three clicks from one of the three come back to it,
    and from any other value the next quality is HD. *)
Theorem quality_cycles_with_period_three (q : string) :
  (exists q', nextQuality q = Some q' /\ In q' qualities)
  /\ (In q qualities ->
      exists q1 q2, nextQuality q = Some q1 /\ nextQuality q1 = Some q2
                    /\ nextQuality q2 = Some q)
  /\ (~ In q qualities -> nextQuality q = Some "HD").
Proof.
  assert (Hcases : q = "HD" \/ q = "4K" \/ q = "SD" \/ ~ In q qualities).
  { destruct (String.eqb q "HD") eqn:E1; [left; now apply String.eqb_eq|].
    destruct (String.eqb q "4K") eqn:E2; [right; left; now apply String.eqb_eq|].
    destruct (String.eqb q "SD") eqn:E3;
      [right; right; left; now apply String.eqb_eq|].
    right; right; right. apply String.eqb_neq in E1, E2, E3.
    cbn. intros [H|[H|[H|[]]]]; congruence. }
  assert (Hother : ~ In q qualities -> nextQuality q = Some "HD").
  { intros Hn. unfold nextQuality, indexOf, qualities in *. cbn [indexOf_from].
    destruct (String.eqb "HD" q) eqn:E1;
      [apply String.eqb_eq in E1; exfalso; apply Hn; cbn; tauto|].
    destruct (String.eqb "4K" q) eqn:E2;
      [apply String.eqb_eq in E2; exfalso; apply Hn; cbn; tauto|].
    destruct (String.eqb "SD" q) eqn:E3;
      [apply String.eqb_eq in E3; exfalso; apply Hn; cbn; tauto|].
    reflexivity. }
  split; [|split; [|exact Hother]].
  - destruct Hcases as [->|[->|[->|Hn]]].
    + exists "4K". split; [reflexivity | cbn; tauto].
    + exists "SD". split; [reflexivity | cbn; tauto].
    + exists "HD". split; [reflexivity | cbn; tauto].
    + exists "HD". split; [now apply Hother | cbn; tauto].
  - intros Hin. destruct Hcases as [->|[->|[->|Hn]]]; [| | |contradiction].
    + now exists "4K", "SD".
    + now exists "SD", "HD".
    + now exists "HD", "4K".
Qed.

End QualityFacts.

Section PanelWitnesses.
Import InferencePanel Home.

(** Unchecking a label that is in the list twice leaves the other label
    where it was. *)
Lemma exclude_checkbox_witness :
  includes (onExcludeChange "person" false ["person"; "animal"; "person"])
    "animal"
  = includes ["person"; "animal"; "person"] "animal".
Proof.
  apply (proj2 (exclude_checkbox_sets_membership "person" "animal" false
                  ["person"; "animal"; "person"])).
  discriminate.
Defined.

(** Excluding Car from a list that holds person. *)
Lemma exclude_click_witness :
  NoDup (onExcludeClick "Car" ["person"]).
Proof.
  apply (proj1 (proj2 (exclude_click_adds_once "Car" ["person"]))).
  apply NoDup_cons; [intros [] | apply NoDup_nil].
Defined.

Lemma exclude_click_example :
  onExcludeClick "Car" ["person"] = ["person"; "car"].
Proof. reflexivity. Qed.

(** Three clicks from 4K. *)
Lemma quality_cycle_witness :
  exists q1 q2,
    nextQuality "4K" = Some q1 /\ nextQuality q1 = Some q2
    /\ nextQuality q2 = Some "4K".
Proof.
  exact (proj1 (proj2 (quality_cycles_with_period_three "4K"))
           (or_intror (or_introl eq_refl))).
Defined.

End PanelWitnesses.

(* ================================================================== *)
(** ** A read cut inside a character *)

Section WireFacts.
Import Js Streaming Wire WireSamples.

Variable JSON_parse : Text -> option JsValue.
Variable ToNumber_other : JsValue -> float.
Variable md : JsValue.

(** C1, on the code. The server sends one metadata line whose [video_id]
    holds a letter of two bytes, and the network cuts the stream between
    the two. Read in one piece, the bytes decode to the line carried and the
    loop body runs on that line. Read in two pieces, each value goes through
    a decoder of its own, which turns the half character it sees into
    U+FFFD: the loop body runs once, on a line that is not the line
    carried, so the record given to [JSON.parse] is not the one sent. *)
Theorem C1_read_cut_inside_a_character (s : State) :
  TextDecoder_decode (first_read ++ second_read) = carried_line ++ [LF]
  /\ Wire.processStream JSON_parse ToNumber_other md
       [first_read ++ second_read] [] s
     = ([], match JSON_parse carried_line with
            | Some data => handle_record ToNumber_other md data s
            | None => s
            end)
  /\ TextDecoder_decode first_read ++ TextDecoder_decode second_read
     = garbled_line ++ [LF]
  /\ Wire.processStream JSON_parse ToNumber_other md
       [first_read; second_read] [] s
     = ([], match JSON_parse garbled_line with
            | Some data => handle_record ToNumber_other md data s
            | None => s
            end)
  /\ garbled_line <> carried_line.
Proof.
  repeat split; try reflexivity.
  intros E. apply (f_equal (@List.length N)) in E.
  vm_compute in E. discriminate.
Qed.

End WireFacts.
